(** * express-payauth: the capability registry and router composer of index.js

    A shallow embedding of [src/index.js] (getBaseRoute, joinUrls,
    validateBaseUrl, buildPaymailRouter) together with the properties the
    specification states about it.

    JavaScript objects that the code shares and mutates (the capability
    map, which may be the caller's own [config.capabilities]) live in an
    explicit heap; the two express routers and the console are threaded
    through a small state-and-exception monad. *)

From stdpp Require Import gmap strings list fin_maps.
From Stdlib Require Import Ascii String.

Open Scope string_scope.
Open Scope list_scope.

(** ** JavaScript values used by index.js *)

Module Js.

(** An [Error] object: its [name], its [message] and the optional [cause]
    property (ES2022). *)
Inductive Error : Type :=
| MkError (name message : string) (cause : option Error).

Definition name (e : Error) : string :=
  match e with MkError n _ _ => n end.
Definition message (e : Error) : string :=
  match e with MkError _ m _ => m end.
Definition cause (e : Error) : option Error :=
  match e with MkError _ _ c => c end.

(** [new Error(message, options)]: the constructor installs a [cause] only
    when [options] is an object that HAS a property called [cause], and
    then it installs [options.cause] (not [options] itself).  index.js
    passes the caught error as [options]. *)
Definition new_Error (message : string) (options : Error) : Error :=
  MkError "Error" message (cause options).

(** Size of the cause chain; an error is never its own cause. *)
Fixpoint depth (e : Error) : nat :=
  match e with
  | MkError _ _ None => 0
  | MkError _ _ (Some c) => S (depth c)
  end.

End Js.

(** The platform's [URL] object: the fields index.js reads ([protocol],
    [hostname], [href]) and its [origin], which index.js does not read. *)
Record URL : Type := MkURL {
  protocol : string;
  hostname : string;
  origin : string;
  href : string
}.

(** ** Strings: the regular expression and the separators *)

Definition is_digit (c : ascii) : bool :=
  match Ascii.is_nat c with Some _ => true | None => false end.

Fixpoint all_digits (s : string) : bool :=
  match s with
  | EmptyString => true
  | String c r => is_digit c && all_digits r
  end.

(** [strip_prefix p s] is [Some r] when [s = p ++ r]. *)
Fixpoint strip_prefix (p s : string) : option string :=
  match p, s with
  | EmptyString, _ => Some s
  | String a p', String b s' => if Ascii.eqb a b then strip_prefix p' s' else None
  | String _ _, EmptyString => None
  end.

(** [/^locahost:?\d*$/.test(s)]: the literal [locahost], an optional colon,
    any number of decimal digits, end of input.  A colon is not a digit, so
    taking the colon whenever it is there loses no match. *)
Definition locahost_re_test (s : string) : bool :=
  match strip_prefix "locahost" s with
  | None => false
  | Some (String ":" r) => all_digits r
  | Some r => all_digits r
  end.

Fixpoint drop_slashes (s : string) : string :=
  match s with
  | String "/" r => drop_slashes r
  | _ => s
  end.

Definition drop_trailing_slashes (s : string) : string :=
  String.rev (drop_slashes (String.rev s)).



Fixpoint intercalate (sep : string) (l : list string) : string :=
  match l with
  | [] => ""
  | [x] => x
  | x :: r => x +:+ sep +:+ intercalate sep r
  end.

(** ** Capability codes, configuration, heap

    [CapabilityCodes] comes from [./constants], which is not part of
    index.js: the development is parametric in it. *)

Module CapabilityCodes.
Record t : Type := Mk {
  requestSenderValidation : string;
  verifyPublicKeyOwner : string;
  publicProfile : string;
  receiveTransaction : string;
  p2pPaymentDestination : string;
  p2pPaymentDestinationWithTokensSupport : string;
  assetInformation : string
}.
End CapabilityCodes.

(** The optional sub-protocols, in the order index.js registers them. *)
Inductive SubProtocol : Type :=
| Identity
| GetPaymentDestination
| VerifyPubkey
| PublicProfile
| ReceiveTransaction
| P2pPaymentDestination
| P2pPaymentDestinationToken
| AssetInformation.

#[global] Instance SubProtocol_eq_dec : EqDecision SubProtocol.
Proof. solve_decision. Defined.

Definition all_subprotocols : list SubProtocol :=
  [Identity; GetPaymentDestination; VerifyPubkey; PublicProfile;
   ReceiveTransaction; P2pPaymentDestination; P2pPaymentDestinationToken;
   AssetInformation].

(** A function value supplied by the caller; only its identity matters. *)
Inductive Function : Type := Fn (id : nat).

(** A value advertised in the capability map. *)
Inductive CapValue : Type :=
| Template (url : string)
| Flag (b : bool).

#[global] Instance CapValue_eq_dec : EqDecision CapValue.
Proof. solve_decision. Defined.

Abbreviation Capabilities := (gmap string CapValue).
Abbreviation Options := (gmap string string).
Abbreviation loc := positive.

(** The configuration object.  [capabilities] is a reference: when the
    caller supplies it, index.js works on that very object.  [callbacks p]
    stands for the callback(s) sub-protocol [p] requires
    ([config.getIdentityKey], [config.getPaymentDestination],
    [config.verifyPublicKeyOwner], ...). *)
Record Config : Type := MkConfig {
  basePath : option string;
  useCors : bool;
  corsConfig : option Options;
  bodyParserConfig : option Options;
  capabilities : option loc;
  requestSenderValidation : option bool;
  errorHandler : Function;
  callbacks : SubProtocol -> option Function
}.

Record World : Type := MkWorld {
  heap : gmap loc Capabilities;
  console : list string
}.

(** ** Routers *)

(** What a registrar hands to its callback: the router of sub-protocol [p],
    closing over the callback(s) taken from the configuration. *)
Inductive ApiStage : Type :=
| SubProtocolRouter (p : SubProtocol) (handler : Function).

Inductive Stage : Type :=
| BodyParserJson (options : Options)
| Cors (options : Options)
| Get (path : string) (capabilities : loc)
| Use (path : string) (router : list ApiStage)
| UseHandler (handler : Function).

Abbreviation Router := (list Stage).

(** ** The construction monad: state, exceptions *)

Record Build : Type := MkBuild {
  world : World;
  baseRouter : list Stage;
  apiRouter : list ApiStage
}.

Definition M (A : Type) : Type := Build -> (Js.Error + A) * Build.

#[global] Instance M_ret : MRet M := fun A (a : A) b => (inr a, b).
#[global] Instance M_bind : MBind M := fun A B (f : A -> M B) (m : M A) b =>
  match m b with
  | (inl e, b') => (inl e, b')
  | (inr a, b') => f a b'
  end.

Definition throw {A : Type} (e : Js.Error) : M A := fun b => (inl e, b).

Definition try_catch {A : Type} (m : M A) (h : Js.Error -> M A) : M A := fun b =>
  match m b with
  | (inl e, b') => h e b'
  | r => r
  end.

Definition console_warn (msg : string) : M unit := fun b =>
  (inr tt, MkBuild (MkWorld (heap (world b)) (console (world b) ++ [msg]))
                   (baseRouter b) (apiRouter b)).

(** [baseRouter.use(stage)] and [apiRouter.use(router)]: append. *)
Definition baseRouter_use (s : Stage) : M unit := fun b =>
  (inr tt, MkBuild (world b) (baseRouter b ++ [s]) (apiRouter b)).

Definition apiRouter_use (s : ApiStage) : M unit := fun b =>
  (inr tt, MkBuild (world b) (baseRouter b) (apiRouter b ++ [s])).

Definition get_apiRouter : M (list ApiStage) := fun b => (inr (apiRouter b), b).
Definition get_baseRouter : M (list Stage) := fun b => (inr (baseRouter b), b).

(** The object a reference points to ([{}] for a reference to nothing). *)
Definition deref (h : gmap loc Capabilities) (l : loc) : Capabilities :=
  default ∅ (h !! l).

(** [{}]: a fresh empty object. *)
Definition new_object : M loc := fun b =>
  let l := fresh (dom (heap (world b))) in
  (inr l, MkBuild (MkWorld (<[l := ∅]> (heap (world b))) (console (world b)))
                  (baseRouter b) (apiRouter b)).

(** [capabilities[key] = value], through the reference. *)
Definition set_capability (l : loc) (key : string) (value : CapValue) : M unit := fun b =>
  let h := heap (world b) in
  (inr tt, MkBuild (MkWorld (<[l := <[key := value]> (deref h l)]> h) (console (world b)))
                   (baseRouter b) (apiRouter b)).

(** ** url-join *)

(** [url-join] is the package index.js loads with [require], so its
    CommonJS line, version 4; its source is not part of this repository.
    The definitions below follow its [normalize], step by step:
    - a first part that is a bare protocol ([/^[^/:]+:\/*$/]) is glued to
      the second;
    - the protocol of the first part gets two slashes (three for
      [file:///]);
    - every part that is not empty loses its leading slashes (except the
      first part) and its trailing slashes (the last part keeps one); a
      part that was not empty is kept even when nothing is left of it;
    - the parts are put together with [/];
    - a slash right before [?], [&] or [#x] ([x] not [!]) is dropped;
    - every [?] after the first becomes [&]. *)

Definition is_slash_or_colon (c : ascii) : bool :=
  Ascii.eqb c "/" || Ascii.eqb c ":".

(** The longest prefix without [/] and [:], and what follows it. *)
Fixpoint span_protocol (s : string) : string * string :=
  match s with
  | EmptyString => (EmptyString, EmptyString)
  | String c r =>
      if is_slash_or_colon c then (EmptyString, s)
      else let '(p, q) := span_protocol r in (String c p, q)
  end.

(** [/^[^/:]+:\/*$/]: a protocol and nothing but slashes after its colon. *)
Definition plain_protocol (s : string) : bool :=
  match span_protocol s with
  | (String _ _, String ":" r) => String.eqb (drop_slashes r) ""
  | _ => false
  end.

(** [s.replace(/^([^/:]+):\/*/, '$1' + slashes)]. *)
Definition replace_protocol (slashes s : string) : string :=
  match span_protocol s with
  | (String c p, String ":" r) => String c p +:+ slashes +:+ drop_slashes r
  | _ => s
  end.

Definition fix_protocol (s : string) : string :=
  if String.prefix "file:///" s then replace_protocol ":///" s
  else replace_protocol "://" s.

(** [s.replace(/[\/]+$/, '/')]. *)
Definition collapse_trailing_slashes (s : string) : string :=
  if String.eqb (drop_trailing_slashes s) s then s
  else drop_trailing_slashes s +:+ "/".

(** The loop over the parts; [first] says whether the part is at index 0. *)
Fixpoint normalize_parts (first : bool) (parts : list string) : list string :=
  match parts with
  | [] => []
  | p :: rest =>
      if String.eqb p "" then normalize_parts false rest
      else
        let c := if first then p else drop_slashes p in
        (match rest with
         | [] => collapse_trailing_slashes c
         | _ :: _ => drop_trailing_slashes c
         end) :: normalize_parts false rest
  end.

(** [s.replace(/\/(\?|&|#[^!])/g, '$1')]. *)
Fixpoint strip_slash_before_params (s : string) : string :=
  match s with
  | EmptyString => EmptyString
  | String a t =>
      if Ascii.eqb a "/" then
        match t with
        | String c r =>
            if Ascii.eqb c "?" || Ascii.eqb c "&" then
              String c (strip_slash_before_params r)
            else if Ascii.eqb c "#" then
              match r with
              | String d r' =>
                  if Ascii.eqb d "!" then String a (strip_slash_before_params t)
                  else String c (String d (strip_slash_before_params r'))
              | EmptyString => String a (strip_slash_before_params t)
              end
            else String a (strip_slash_before_params t)
        | EmptyString => String a EmptyString
        end
      else String a (strip_slash_before_params t)
  end.

Fixpoint questions_to_ampersands (s : string) : string :=
  match s with
  | EmptyString => EmptyString
  | String c r =>
      String (if Ascii.eqb c "?" then "&"%char else c) (questions_to_ampersands r)
  end.

(** [parts = s.split('?'); parts.shift() + (parts.length > 0 ? '?' : '')
    + parts.join('&')]. *)
Fixpoint keep_first_question (s : string) : string :=
  match s with
  | EmptyString => EmptyString
  | String c r =>
      if Ascii.eqb c "?" then String c (questions_to_ampersands r)
      else String c (keep_first_question r)
  end.

Definition urljoin (parts : list string) : string :=
  match parts with
  | [] => ""
  | first :: rest =>
      let parts :=
        match rest with
        | second :: rest' =>
            if plain_protocol first then (first +:+ second) :: rest' else parts
        | [] => parts
        end in
      let parts :=
        match parts with
        | first :: rest => fix_protocol first :: rest
        | [] => []
        end in
      keep_first_question
        (strip_slash_before_params (intercalate "/" (normalize_parts true parts)))
  end.


(** ** index.js *)

Definition getBaseRoute (config : Config) : string :=
  match basePath config with
  | Some s => if decide (s = "") then "/" else s
  | None => "/"
  end.

Definition joinUrls (parts : list string) : string := urljoin parts.

(** Modelled from the spec: the eight registrars ([buildIdentityRouter],
    [buildGetPaymentDestinationRouter], ...) are sibling files that index.js
    only calls.  Section 4.3: presence of the required callback(s) in the
    configuration is the enablement signal; an enabled sub-protocol builds a
    handler closing over them and invokes the callback exactly once; a
    disabled one contributes nothing. *)
Definition register (p : SubProtocol) (config : Config)
    (onMounted : ApiStage -> M unit) : M unit :=
  match callbacks config p with
  | Some f => onMounted (SubProtocolRouter p f)
  | None => mret tt
  end.

Definition buildIdentityRouter := register Identity.
Definition buildGetPaymentDestinationRouter := register GetPaymentDestination.
Definition buildVerifyPubkeyRouter := register VerifyPubkey.
Definition buildPublicProfileRouter := register PublicProfile.
Definition buildReceiveTransactionRouter := register ReceiveTransaction.
Definition buildP2pPaymentDestinationRouter := register P2pPaymentDestination.
Definition buildP2pPaymentDestinationTokenRouter := register P2pPaymentDestinationToken.
Definition buildAssetInformationRouter := register AssetInformation.

Section IndexJs.

(** [new URL(s)] of the platform: a [TypeError] or the parsed URL. *)
Variable URL_new : string -> Js.Error + URL.

(** The constants of [./constants]. *)
Variable codes : CapabilityCodes.t.

Definition validateBaseUrl (url : string) : M URL :=
  try_catch
    (match URL_new url with
     | inl err => throw err
     | inr url =>
         (if negb (String.eqb (protocol url) "https:")
             && locahost_re_test (hostname url)
          then console_warn "Paymail should always use ssl on production"
          else mret tt) ;;
         mret url
     end)
    (fun err => throw (Js.new_Error ("Invalid base url: " +:+ url) err)).

Definition buildPaymailRouter_steps (baseUrl : string) (config : Config) : M Router :=
  baseRouter_use
    (BodyParserJson (<["type" := "application/json"]> (default ∅ (bodyParserConfig config)))) ;;
  baseUrl ← validateBaseUrl baseUrl ;
  (if useCors config
   then baseRouter_use (Cors (default ∅ (corsConfig config)))
   else mret tt) ;;
  capabilities ← match capabilities config with
                 | Some l => mret l
                 | None => new_object
                 end ;
  set_capability capabilities (CapabilityCodes.requestSenderValidation codes)
    (Flag (negb (negb (default false (requestSenderValidation config))))) ;;
  buildIdentityRouter config (fun router =>
    apiRouter_use router ;;
    set_capability capabilities "pki"
      (Template (joinUrls [href baseUrl; getBaseRoute config; "/id/{alias}@{domain.tld}"]))) ;;
  buildGetPaymentDestinationRouter config (fun router =>
    apiRouter_use router ;;
    set_capability capabilities "paymentDestination"
      (Template (joinUrls [href baseUrl; getBaseRoute config; "/address/{alias}@{domain.tld}"]))) ;;
  buildVerifyPubkeyRouter config (fun router =>
    apiRouter_use router ;;
    set_capability capabilities (CapabilityCodes.verifyPublicKeyOwner codes)
      (Template (joinUrls [href baseUrl; getBaseRoute config;
                           "/verifypubkey/{alias}@{domain.tld}/{pubkey}"]))) ;;
  buildPublicProfileRouter config (fun router =>
    console_warn "This feature is in alpha state. Paymail profile protocol is still being discussed." ;;
    apiRouter_use router ;;
    set_capability capabilities (CapabilityCodes.publicProfile codes)
      (Template (joinUrls [href baseUrl; getBaseRoute config;
                           "/public-profile/{alias}@{domain.tld}"]))) ;;
  buildReceiveTransactionRouter config (fun router =>
    apiRouter_use router ;;
    set_capability capabilities (CapabilityCodes.receiveTransaction codes)
      (Template (joinUrls [href baseUrl; getBaseRoute config;
                           "/receive-transaction/{alias}@{domain.tld}"]))) ;;
  buildP2pPaymentDestinationRouter config (fun router =>
    apiRouter_use router ;;
    set_capability capabilities (CapabilityCodes.p2pPaymentDestination codes)
      (Template (joinUrls [href baseUrl; getBaseRoute config;
                           "/p2p-payment-destination/{alias}@{domain.tld}"]))) ;;
  buildP2pPaymentDestinationTokenRouter config (fun router =>
    apiRouter_use router ;;
    set_capability capabilities (CapabilityCodes.p2pPaymentDestinationWithTokensSupport codes)
      (Template (joinUrls [href baseUrl; getBaseRoute config;
                           "/p2p-payment-destination-tokens-support/{alias}@{domain.tld}"]))) ;;
  buildAssetInformationRouter config (fun router =>
    apiRouter_use router ;;
    set_capability capabilities (CapabilityCodes.assetInformation codes)
      (Template (joinUrls [href baseUrl; getBaseRoute config; "/asset/{alias}@{domain.tld}"]))) ;;
  set_capability capabilities "userDomain"
    (Template (joinUrls [href baseUrl; getBaseRoute config; "/oauth/{user}@{domain.tld}"])) ;;
  set_capability capabilities "userDomainResponse"
    (Template (joinUrls [href baseUrl; getBaseRoute config; "/oauth/response/{app}@{domain.tld}"])) ;;
  set_capability capabilities "userInfo"
    (Template (joinUrls [href baseUrl; getBaseRoute config; "/payauth/userinfo/{user}@{domain.tld}"])) ;;
  baseRouter_use (Get "/.well-known/bsvalias" capabilities) ;;
  api ← get_apiRouter ;
  baseRouter_use (Use (getBaseRoute config) api) ;;
  baseRouter_use (UseHandler (errorHandler config)) ;;
  get_baseRouter.

(** [buildPaymailRouter(baseUrl, config)], started with two new routers: the
    caller gets the base router or the exception, and the world as the call
    leaves it. *)
Definition buildPaymailRouter (baseUrl : string) (config : Config) (w : World)
    : (Js.Error + Router) * World :=
  let r := buildPaymailRouter_steps baseUrl config (MkBuild w [] []) in
  (r.1, world r.2).

End IndexJs.

(** ** The registration table read off index.js *)

(** The key under which sub-protocol [p] is advertised. *)
Definition capability_key (codes : CapabilityCodes.t) (p : SubProtocol) : string :=
  match p with
  | Identity => "pki"
  | GetPaymentDestination => "paymentDestination"
  | VerifyPubkey => CapabilityCodes.verifyPublicKeyOwner codes
  | PublicProfile => CapabilityCodes.publicProfile codes
  | ReceiveTransaction => CapabilityCodes.receiveTransaction codes
  | P2pPaymentDestination => CapabilityCodes.p2pPaymentDestination codes
  | P2pPaymentDestinationToken => CapabilityCodes.p2pPaymentDestinationWithTokensSupport codes
  | AssetInformation => CapabilityCodes.assetInformation codes
  end.

(** The path pattern index.js joins for sub-protocol [p]. *)
Definition capability_path (p : SubProtocol) : string :=
  match p with
  | Identity => "/id/{alias}@{domain.tld}"
  | GetPaymentDestination => "/address/{alias}@{domain.tld}"
  | VerifyPubkey => "/verifypubkey/{alias}@{domain.tld}/{pubkey}"
  | PublicProfile => "/public-profile/{alias}@{domain.tld}"
  | ReceiveTransaction => "/receive-transaction/{alias}@{domain.tld}"
  | P2pPaymentDestination => "/p2p-payment-destination/{alias}@{domain.tld}"
  | P2pPaymentDestinationToken => "/p2p-payment-destination-tokens-support/{alias}@{domain.tld}"
  | AssetInformation => "/asset/{alias}@{domain.tld}"
  end.

(** The three entries index.js always writes, with their path patterns. *)
Definition fixed_entries : list (string * string) :=
  [("userDomain", "/oauth/{user}@{domain.tld}");
   ("userDomainResponse", "/oauth/response/{app}@{domain.tld}");
   ("userInfo", "/payauth/userinfo/{user}@{domain.tld}")].

Definition template (u : URL) (config : Config) (path : string) : CapValue :=
  Template (joinUrls [href u; getBaseRoute config; path]).

(** Every key index.js may write: sender validation, the eight sub-protocol
    keys, the three fixed keys. *)
Definition all_keys (codes : CapabilityCodes.t) : list string :=
  CapabilityCodes.requestSenderValidation codes
    :: (capability_key codes <$> all_subprotocols) ++ fixed_entries.*1.

(** Each capability owns its key: no two of the twelve coincide. *)
Definition distinct_codes (codes : CapabilityCodes.t) : Prop := NoDup (all_keys codes).

#[global] Instance distinct_codes_dec codes : Decision (distinct_codes codes).
Proof. unfold distinct_codes. apply _. Defined.

Definition enabled (config : Config) (p : SubProtocol) : bool :=
  bool_decide (is_Some (callbacks config p)).

(** [capabilities[key] = value] on the heap. *)
Definition write (l : loc) (key : string) (value : CapValue)
    (h : gmap loc Capabilities) : gmap loc Capabilities :=
  <[l := <[key := value]> (deref h l)]> h.

Definition alpha_notice : string :=
  "This feature is in alpha state. Paymail profile protocol is still being discussed.".

(** What one registrar call of index.js leaves behind. *)
Definition mount_effect (codes : CapabilityCodes.t) (u : URL) (config : Config)
    (l : loc) (p : SubProtocol) (b : Build) : Build :=
  match callbacks config p with
  | None => b
  | Some f =>
      MkBuild
        (MkWorld
           (write l (capability_key codes p) (template u config (capability_path p))
              (heap (world b)))
           (match p with
            | PublicProfile => console (world b) ++ [alpha_notice]
            | _ => console (world b)
            end))
        (baseRouter b)
        (apiRouter b ++ [SubProtocolRouter p f])
  end.

(** The routers the enabled sub-protocols contribute, in registration order. *)
Definition mounted (config : Config) : list ApiStage :=
  omap (fun p => SubProtocolRouter p <$> callbacks config p) all_subprotocols.

(** The entries of the enabled sub-protocols written over [m]. *)
Definition with_subprotocols (codes : CapabilityCodes.t) (u : URL) (config : Config)
    (ps : list SubProtocol) (m : Capabilities) : Capabilities :=
  foldl (fun m p => if enabled config p
                    then <[capability_key codes p := template u config (capability_path p)]> m
                    else m) m ps.

Definition with_fixed (u : URL) (config : Config) (m : Capabilities) : Capabilities :=
  foldl (fun m e => <[e.1 := template u config e.2]> m) m fixed_entries.

(** The capability map index.js leaves in the object it started from [seed]. *)
Definition final_capabilities (codes : CapabilityCodes.t) (u : URL) (config : Config)
    (seed : Capabilities) : Capabilities :=
  with_fixed u config
    (with_subprotocols codes u config all_subprotocols
       (<[CapabilityCodes.requestSenderValidation codes :=
            Flag (default false (requestSenderValidation config))]> seed)).

(** Whether [validateBaseUrl] prints its warning for the parsed URL [u]. *)
Definition warned (u : URL) : bool :=
  negb (String.eqb (protocol u) "https:") && locahost_re_test (hostname u).

Definition ssl_warning : string := "Paymail should always use ssl on production".

(** ** The state construction leaves behind, in closed form *)

Definition capabilities_ref (config : Config) (h : gmap loc Capabilities) : loc :=
  match capabilities config with
  | Some l => l
  | None => fresh (dom h)
  end.

Definition capabilities_heap (config : Config) (h : gmap loc Capabilities)
    : gmap loc Capabilities :=
  match capabilities config with
  | Some l => h
  | None => <[fresh (dom h) := ∅]> h
  end.

Definition first_stages (config : Config) : list Stage :=
  BodyParserJson (<["type" := "application/json"]> (default ∅ (bodyParserConfig config)))
    :: (if useCors config then [Cors (default ∅ (corsConfig config))] else []).

Definition after_registrars (codes : CapabilityCodes.t) (u : URL) (config : Config) (w : World) : Build :=
  let l := capabilities_ref config (heap w) in
  foldl (fun b p => mount_effect codes u config l p b)
    (MkBuild
       (MkWorld
          (write l (CapabilityCodes.requestSenderValidation codes)
             (Flag (default false (requestSenderValidation config)))
             (capabilities_heap config (heap w)))
          (if warned u
           then console w ++ [ssl_warning]
           else console w))
       (first_stages config) [])
    all_subprotocols.

Definition built_router (codes : CapabilityCodes.t) (u : URL) (config : Config)
    (w : World) : Router :=
  let b := after_registrars codes u config w in
  baseRouter b ++
    [Get "/.well-known/bsvalias" (capabilities_ref config (heap w));
     Use (getBaseRoute config) (apiRouter b);
     UseHandler (errorHandler config)].

Definition built_world (codes : CapabilityCodes.t) (u : URL) (config : Config)
    (w : World) : World :=
  let b := after_registrars codes u config w in
  let l := capabilities_ref config (heap w) in
  MkWorld
    (foldl (fun h e => write l e.1 (template u config e.2) h) (heap (world b)) fixed_entries)
    (console (world b)).


(** The keys a configuration makes index.js write. *)
Definition advertised_keys (codes : CapabilityCodes.t) (config : Config) : list string :=
  CapabilityCodes.requestSenderValidation codes
    :: (capability_key codes <$> filter (fun p => enabled config p) all_subprotocols)
    ++ fixed_entries.*1.

(** What the caller had put in the capability object before the call. *)
Definition seed (config : Config) (w : World) : Capabilities :=
  match capabilities config with
  | Some l => deref (heap w) l
  | None => ∅
  end.

(** ** Serving requests

    The pipeline as express runs it: stages in order; a stage passes the
    request on, answers it, or raises; after a raise only error-handling
    middleware is considered.  Body parsing, cross-origin handling, the
    sub-protocol handlers, the error handler and express's path matching
    are collaborators, taken as given. *)

Record Request : Type := MkRequest {
  method : string;
  path : string;
  content : string
}.

Inductive Body : Type :=
| Discovery (bsvalias : string) (capabilities : Capabilities)
| Other (text : string).

Record Response : Type := MkResponse {
  contentType : string;
  body : Body
}.

Inductive Outcome : Type :=
| Next
| Raise (e : Js.Error)
| Send (r : Response).

Record Collaborators : Type := MkCollaborators {
  bodyParser_json : Options -> Request -> Outcome;
  cors : Options -> Request -> Outcome;
  subProtocol : SubProtocol -> Function -> Request -> Outcome;
  handleError : Function -> Js.Error -> Request -> Response;
  route_match : string -> string -> bool;
  mount_match : string -> string -> bool
}.

(** What became of a request: answered, or left to the application. *)
Inductive Final : Type :=
| Responded (r : Response)
| Unhandled (e : option Js.Error).

(** The handler index.js passes to [baseRouter.get]:
    [res.type('application/json'); res.send({ bsvalias: '1.0', capabilities })].
    It reads the capability object through the reference it closes over. *)
Definition discovery_handler (capabilities : loc) (req : Request) (w : World)
    : Response * World :=
  (MkResponse "application/json" (Discovery "1.0" (deref (heap w) capabilities)), w).

Section Serving.

Variable ext : Collaborators.

Fixpoint run_api (stages : list ApiStage) (req : Request) : Outcome :=
  match stages with
  | [] => Next
  | SubProtocolRouter p f :: rest =>
      match subProtocol ext p f req with
      | Next => run_api rest req
      | o => o
      end
  end.

Definition run_stage (s : Stage) (req : Request) (w : World) : Outcome * World :=
  match s with
  | BodyParserJson o => (bodyParser_json ext o req, w)
  | Cors o => (cors ext o req, w)
  | Get route capabilities =>
      if String.eqb (method req) "GET" && route_match ext route (path req)
      then let r := discovery_handler capabilities req w in (Send r.1, r.2)
      else (Next, w)
  | Use mount api =>
      if mount_match ext mount (path req) then (run_api api req, w) else (Next, w)
  | UseHandler _ => (Next, w)
  end.

Fixpoint handle_error (stages : list Stage) (e : Js.Error) (req : Request) : Final :=
  match stages with
  | [] => Unhandled (Some e)
  | UseHandler f :: _ => Responded (handleError ext f e req)
  | _ :: rest => handle_error rest e req
  end.

Fixpoint handle (stages : list Stage) (req : Request) (w : World) : Final * World :=
  match stages with
  | [] => (Unhandled None, w)
  | s :: rest =>
      match run_stage s req w with
      | (Next, w') => handle rest req w'
      | (Send r, w') => (Responded r, w')
      | (Raise e, w') => (handle_error rest e req, w')
      end
  end.

End Serving.

(** The capability object the discovery endpoint of a router serves. *)
Fixpoint discovery_ref (r : Router) : option loc :=
  match r with
  | [] => None
  | Get _ l :: _ => Some l
  | _ :: rest => discovery_ref rest
  end.

Definition served (r : Router) (w : World) : option Capabilities :=
  deref (heap w) <$> discovery_ref r.

(** The capability map a finished call of [buildPaymailRouter] serves. *)
Definition served_by (result : (Js.Error + Router) * World) : option Capabilities :=
  match result.1 with
  | inr r => served r result.2
  | inl _ => None
  end.

(** The sub-protocol routers mounted in a router. *)
Fixpoint api_stages (r : Router) : list ApiStage :=
  match r with
  | [] => []
  | Use _ api :: rest => api ++ api_stages rest
  | _ :: rest => api_stages rest
  end.

Definition is_mounted (p : SubProtocol) (r : Router) : Prop :=
  exists f, SubProtocolRouter p f ∈ api_stages r.

(** The sub-protocol routers a finished call of [buildPaymailRouter] mounted. *)
Definition mounted_by (result : (Js.Error + Router) * World) : option (list ApiStage) :=
  match result.1 with
  | inr r => Some (api_stages r)
  | inl _ => None
  end.

(** ** Concrete collaborators, to run the development on examples *)

Fixpoint split_on (sep s : string) : option (string * string) :=
  match strip_prefix sep s with
  | Some r => Some ("", r)
  | None =>
      match s with
      | EmptyString => None
      | String c r =>
          match split_on sep r with
          | Some (a, b) => Some (String c a, b)
          | None => None
          end
      end
  end.

Definition invalid_url : Js.Error := Js.MkError "TypeError" "Invalid URL" None.

(** A stand-in for the platform's URL parser on inputs of the shape
    [scheme://host[:port][/path]]; anything else is rejected. *)
Definition simple_URL_new (s : string) : Js.Error + URL :=
  match split_on "://" s with
  | None => inl invalid_url
  | Some (scheme, rest) =>
      let '(hostport, path) :=
        match split_on "/" rest with
        | Some (hp, p) => (hp, "/" +:+ p)
        | None => (rest, "/")
        end in
      let host :=
        match split_on ":" hostport with
        | Some (h, _) => h
        | None => hostport
        end in
      if decide (scheme = "" \/ host = "") then inl invalid_url
      else inr (MkURL (scheme +:+ ":") host (scheme +:+ "://" +:+ hostport)
                  (scheme +:+ "://" +:+ hostport +:+ path))
  end.

(** Capability codes named after themselves, as the specification's example
    writes its keys. *)
Definition named_codes : CapabilityCodes.t :=
  CapabilityCodes.Mk "requestSenderValidation" "verifyPublicKeyOwner" "publicProfile"
    "receiveTransaction" "p2pPaymentDestination"
    "p2pPaymentDestinationWithTokensSupport" "assetInformation".

(** A configuration with nothing set. *)
Definition bare_config : Config :=
  MkConfig None false None None None None (Fn 0) (fun _ => None).

(** Identity lookup only ([getIdentityKey] supplied), everything else unset. *)
Definition identity_only : Config :=
  MkConfig None false None None None None (Fn 0)
    (fun p => match p with Identity => Some (Fn 1) | _ => None end).


(** A caller that passes its own capability object, already holding an
    entry [pki], and no callback at all. *)
Definition seeded_config : Config :=
  MkConfig None false None None (Some 1%positive) None (Fn 0) (fun _ => None).

Definition seeded_world : World :=
  MkWorld {[ 1%positive := {[ "pki" := Template "https://elsewhere.example/id" ]} ]} [].

Definition empty_world : World := MkWorld ∅ [].

(** Collaborators that let every request through. *)
Definition transparent : Collaborators :=
  MkCollaborators (fun _ _ => Next) (fun _ _ => Next) (fun _ _ _ => Next)
    (fun _ e _ => MkResponse "application/json" (Other (Js.message e)))
    String.eqb (fun _ _ => true).

(** Collaborators whose sub-protocol handlers all raise. *)
Definition failing (e : Js.Error) : Collaborators :=
  MkCollaborators (fun _ _ => Next) (fun _ _ => Next) (fun _ _ _ => Raise e)
    (fun _ e _ => MkResponse "application/json" (Other (Js.message e)))
    String.eqb (fun _ _ => true).

(** ** buildRouter *)

(** What a caller hands to [buildRouter]: any property may be missing.  A
    [useCors] that is there counts by its truthiness. *)
Record RouterConfig : Type := MkRouterConfig {
  given_basePath : option string;
  given_useCors : option bool;
  given_corsConfig : option Options;
  given_bodyParserConfig : option Options;
  given_capabilities : option loc;
  given_requestSenderValidation : option bool;
  given_errorHandler : option Function;
  given_callbacks : SubProtocol -> option Function
}.

(** The object literal of [buildRouter]: [useCors: true], [corsConfig: {}],
    [errorHandler] (the handler of [./error-handler], a parameter here) and
    [bodyParserConfig: {}], then the caller's own properties over them.  The
    [paymailClient] it also puts in is for the sub-protocol handlers;
    [buildPaymailRouter] never reads it. *)
Definition with_defaults (errorHandler : Function) (config : RouterConfig) : Config :=
  MkConfig
    (given_basePath config)
    (default true (given_useCors config))
    (Some (default ∅ (given_corsConfig config)))
    (Some (default ∅ (given_bodyParserConfig config)))
    (given_capabilities config)
    (given_requestSenderValidation config)
    (default errorHandler (given_errorHandler config))
    (given_callbacks config).

Definition buildRouter (URL_new : string -> Js.Error + URL) (codes : CapabilityCodes.t)
    (errorHandler : Function) (baseDomain : string) (config : RouterConfig) (w : World)
    : (Js.Error + Router) * World :=
  buildPaymailRouter URL_new codes baseDomain (with_defaults errorHandler config) w.

(** ** More helpers *)

(** The configuration with another [basePath]. *)
Definition set_basePath (basePath' : option string) (config : Config) : Config :=
  MkConfig basePath' (useCors config) (corsConfig config) (bodyParserConfig config)
    (capabilities config) (requestSenderValidation config) (errorHandler config)
    (callbacks config).

Definition stage_protocol (s : ApiStage) : SubProtocol :=
  match s with SubProtocolRouter p _ => p end.

(** A map transformer that only sets keys to values of its own choosing. *)
Definition overriding (F : Capabilities -> Capabilities) : Prop :=
  exists f : string -> option CapValue,
    forall m k, F m !! k = match f k with Some v => Some v | None => m !! k end.

(** A caller that asks for nothing: [buildRouter(baseDomain, {})]. *)
Definition nothing_given : RouterConfig :=
  MkRouterConfig None None None None None None None (fun _ => None).

(** Public profile and identity lookup enabled. *)
Definition profile_and_identity : Config :=
  MkConfig None false None None None None (Fn 0)
    (fun p => match p with
              | Identity => Some (Fn 1)
              | PublicProfile => Some (Fn 2)
              | _ => None
              end).

(** Identity lookup over the caller's capability object of [seeded_world]. *)
Definition seeded_identity : Config :=
  MkConfig None false None None (Some 1%positive) None (Fn 0)
    (fun p => match p with Identity => Some (Fn 1) | _ => None end).

(** A caller-supplied body-parser policy that tries to change the type. *)
Definition text_body_config : Config :=
  MkConfig None false None (Some {[ "type" := "text/plain"; "limit" := "1mb" ]})
    None None (Fn 0) (fun _ => None).

(** * Construction, step by step *)

Lemma bind_run {A B : Type} (m : M A) (f : A -> M B) (b b' : Build) (a : A) :
  m b = (inr a, b') -> (m ≫= f) b = f a b'.
Proof. intros H. unfold mbind, M_bind. by rewrite H. Qed.

Lemma bind_throw {A B : Type} (m : M A) (f : A -> M B) (b b' : Build) (e : Js.Error) :
  m b = (inl e, b') -> (m ≫= f) b = (inl e, b').
Proof. intros H. unfold mbind, M_bind. by rewrite H. Qed.

Lemma register_run (codes : CapabilityCodes.t) (u : URL) (config : Config) (l : loc)
    (p : SubProtocol) (k : ApiStage -> M unit) (b : Build) :
  (forall f b, k (SubProtocolRouter p f) b
     = (inr tt, MkBuild
          (MkWorld
             (write l (capability_key codes p) (template u config (capability_path p))
                (heap (world b)))
             (match p with
              | PublicProfile => console (world b) ++ [alpha_notice]
              | _ => console (world b)
              end))
          (baseRouter b)
          (apiRouter b ++ [SubProtocolRouter p f]))) ->
  register p config k b = (inr tt, mount_effect codes u config l p b).
Proof.
  intros Hk. unfold register, mount_effect.
  destruct (callbacks config p) as [f|]; [apply Hk | reflexivity].
Qed.

Lemma cors_run (config : Config) (b : Build) :
  (if useCors config
   then baseRouter_use (Cors (default ∅ (corsConfig config)))
   else mret tt) b
  = (inr tt, MkBuild (world b)
       (baseRouter b ++ if useCors config then [Cors (default ∅ (corsConfig config))] else [])
       (apiRouter b)).
Proof.
  destruct (useCors config); [reflexivity|].
  rewrite app_nil_r. by destruct b.
Qed.

Lemma capabilities_run (config : Config) (b : Build) :
  match capabilities config with
  | Some l => mret l
  | None => new_object
  end b
  = (inr (capabilities_ref config (heap (world b))),
     MkBuild (MkWorld (capabilities_heap config (heap (world b))) (console (world b)))
       (baseRouter b) (apiRouter b)).
Proof.
  unfold capabilities_ref, capabilities_heap.
  destruct (capabilities config); [|reflexivity]. by destruct b as [[??]??].
Qed.

Section Construction.

Variable URL_new : string -> Js.Error + URL.
Variable codes : CapabilityCodes.t.

Lemma validateBaseUrl_ok (s : string) (u : URL) (b : Build) :
  URL_new s = inr u ->
  validateBaseUrl URL_new s b
  = (inr u, MkBuild
      (MkWorld (heap (world b))
         (if warned u then console (world b) ++ [ssl_warning] else console (world b)))
      (baseRouter b) (apiRouter b)).
Proof.
  intros H. unfold validateBaseUrl, try_catch, warned. rewrite H.
  destruct (negb _ && _); [reflexivity|]. by destruct b as [[??]??].
Qed.

Lemma validateBaseUrl_throws (s : string) (err : Js.Error) (b : Build) :
  URL_new s = inl err ->
  validateBaseUrl URL_new s b
  = (inl (Js.new_Error ("Invalid base url: " +:+ s) err), b).
Proof. intros H. unfold validateBaseUrl, try_catch, throw. by rewrite H. Qed.

Lemma steps_ok (s : string) (u : URL) (config : Config) (w : World) :
  URL_new s = inr u ->
  buildPaymailRouter_steps URL_new codes s config (MkBuild w [] [])
  = (inr (built_router codes u config w),
     MkBuild (built_world codes u config w) (built_router codes u config w)
       (apiRouter (after_registrars codes u config w))).
Proof.
  intros Hu. unfold buildPaymailRouter_steps.
  erewrite bind_run; [|reflexivity].
  erewrite bind_run; [|by apply validateBaseUrl_ok].
  erewrite bind_run; [|apply cors_run].
  erewrite bind_run; [|apply capabilities_run].
  erewrite bind_run; [|reflexivity].
  rewrite negb_involutive.
  cbn [world baseRouter apiRouter heap console app].
  do 8 (erewrite bind_run;
    [|by apply (register_run codes u config (capabilities_ref config (heap w)))]).
  match goal with
  | |- context [mount_effect _ _ _ _ AssetInformation ?x] =>
      change (mount_effect codes u config (capabilities_ref config (heap w))
                AssetInformation x)
        with (after_registrars codes u config w)
  end.
  unfold built_router, built_world, fixed_entries.
  generalize (after_registrars codes u config w) as b. intros b.
  do 7 (erewrite bind_run; [|reflexivity];
        cbn [world baseRouter apiRouter heap console]).
  unfold get_baseRouter. cbn [world baseRouter apiRouter heap console foldl fst snd].
  rewrite <- !app_assoc. reflexivity.
Qed.

(** A base URL that parses: construction returns the router of
    [built_router] and leaves the world of [built_world]. *)
Lemma build_ok (s : string) (u : URL) (config : Config) (w : World) :
  URL_new s = inr u ->
  buildPaymailRouter URL_new codes s config w
  = (inr (built_router codes u config w), built_world codes u config w).
Proof. intros Hu. unfold buildPaymailRouter. by rewrite (steps_ok _ u). Qed.

(** A base URL that does not parse: the exception of [validateBaseUrl]
    leaves [buildPaymailRouter], and the world is as it was. *)
Lemma build_throws (s : string) (err : Js.Error) (config : Config) (w : World) :
  URL_new s = inl err ->
  buildPaymailRouter URL_new codes s config w
  = (inl (Js.new_Error ("Invalid base url: " +:+ s) err), w).
Proof.
  intros Hu. unfold buildPaymailRouter, buildPaymailRouter_steps.
  erewrite bind_run; [|reflexivity].
  erewrite bind_throw; [|by apply validateBaseUrl_throws].
  reflexivity.
Qed.

End Construction.

(** * The heap and the capability object *)

Lemma deref_write_eq (l : loc) (k : string) (v : CapValue) (h : gmap loc Capabilities) :
  deref (write l k v h) l = <[k := v]> (deref h l).
Proof. unfold deref at 1, write. by rewrite lookup_insert_eq. Qed.

Lemma lookup_write_eq (l : loc) (k : string) (v : CapValue) (h : gmap loc Capabilities) :
  write l k v h !! l = Some (deref (write l k v h) l).
Proof. unfold deref, write. by rewrite lookup_insert_eq. Qed.

Lemma lookup_write_ne (l l' : loc) (k : string) (v : CapValue) (h : gmap loc Capabilities) :
  l ≠ l' -> write l k v h !! l' = h !! l'.
Proof. intros Hne. unfold write. by rewrite lookup_insert_ne. Qed.

Lemma capabilities_ref_fresh (config : Config) (h : gmap loc Capabilities) (l : loc) :
  l ∈ dom h -> capabilities config ≠ Some l -> capabilities_ref config h ≠ l.
Proof.
  intros Hl Hne. unfold capabilities_ref.
  destruct (capabilities config) as [l0|]; [congruence|].
  intros <-. by apply (is_fresh (dom h)).
Qed.

Lemma deref_capabilities_heap (config : Config) (w : World) :
  deref (capabilities_heap config (heap w)) (capabilities_ref config (heap w))
  = seed config w.
Proof.
  unfold capabilities_heap, capabilities_ref, seed.
  destruct (capabilities config); [reflexivity|].
  unfold deref. by rewrite lookup_insert_eq.
Qed.

Lemma lookup_capabilities_heap (config : Config) (h : gmap loc Capabilities) (l : loc) :
  l ∈ dom h -> capabilities_heap config h !! l = h !! l.
Proof.
  intros Hl. unfold capabilities_heap.
  destruct (capabilities config); [reflexivity|].
  rewrite lookup_insert_ne; [reflexivity|].
  intros Heq. apply (is_fresh (dom h)). by rewrite Heq.
Qed.

(** * The registrars, folded *)

Lemma with_subprotocols_cons codes u config p ps (m : Capabilities) :
  with_subprotocols codes u config (p :: ps) m
  = with_subprotocols codes u config ps
      (if enabled config p
       then <[capability_key codes p := template u config (capability_path p)]> m
       else m).
Proof. reflexivity. Qed.

Section Registrars.

Variable codes : CapabilityCodes.t.
Variable u : URL.
Variable config : Config.
Variable l : loc.

Local Abbreviation run := (foldl (fun b p => mount_effect codes u config l p b)).

Lemma registrars_baseRouter ps b : baseRouter (run b ps) = baseRouter b.
Proof.
  revert b. induction ps as [|p ps IH]; intros b; [reflexivity|].
  cbn. rewrite IH. unfold mount_effect. by destruct (callbacks config p).
Qed.

Lemma registrars_apiRouter ps b :
  apiRouter (run b ps)
  = apiRouter b ++ omap (fun p => SubProtocolRouter p <$> callbacks config p) ps.
Proof.
  revert b. induction ps as [|p ps IH]; intros b; cbn.
  - by rewrite app_nil_r.
  - rewrite IH. unfold mount_effect.
    destruct (callbacks config p); cbn; [by rewrite <- app_assoc | reflexivity].
Qed.

Lemma registrars_deref ps b :
  deref (heap (world (run b ps))) l
  = with_subprotocols codes u config ps (deref (heap (world b)) l).
Proof.
  revert b. induction ps as [|p ps IH]; intros b; [reflexivity|].
  change (run b (p :: ps)) with (run (mount_effect codes u config l p b) ps).
  rewrite IH, with_subprotocols_cons. f_equal.
  unfold mount_effect, enabled.
  destruct (callbacks config p); cbn; [apply deref_write_eq | reflexivity].
Qed.

Lemma registrars_frame ps b l' :
  l ≠ l' -> heap (world (run b ps)) !! l' = heap (world b) !! l'.
Proof.
  intros Hne. revert b. induction ps as [|p ps IH]; intros b; [reflexivity|].
  cbn. rewrite IH. unfold mount_effect.
  destruct (callbacks config p); cbn; [by apply lookup_write_ne | reflexivity].
Qed.

Lemma registrars_console ps b :
  exists notices, console (world (run b ps)) = console (world b) ++ notices
    /\ forall x, x ∈ notices -> x = alpha_notice.
Proof.
  revert b. induction ps as [|p ps IH]; intros b.
  - exists []. split; [by rewrite app_nil_r | intros x Hx; by apply elem_of_nil in Hx].
  - change (run b (p :: ps)) with (run (mount_effect codes u config l p b) ps).
    destruct (IH (mount_effect codes u config l p b)) as (n & Hn & Hall).
    rewrite Hn. unfold mount_effect.
    destruct (callbacks config p); cbn; [|by exists n].
    destruct p; try by exists n.
    exists (alpha_notice :: n). split; [by rewrite <- app_assoc|].
    intros x [->|Hx]%elem_of_cons; [reflexivity | by apply Hall].
Qed.

End Registrars.

(** * What construction leaves behind *)

Section Built.

Variable codes : CapabilityCodes.t.
Variable u : URL.
Variable config : Config.
Variable w : World.

Lemma built_router_eq :
  built_router codes u config w
  = first_stages config ++
      [Get "/.well-known/bsvalias" (capabilities_ref config (heap w));
       Use (getBaseRoute config) (mounted config);
       UseHandler (errorHandler config)].
Proof.
  unfold built_router, after_registrars.
  by rewrite registrars_baseRouter, registrars_apiRouter.
Qed.

Lemma built_discovery_ref :
  discovery_ref (built_router codes u config w)
  = Some (capabilities_ref config (heap w)).
Proof.
  rewrite built_router_eq. unfold first_stages.
  by destruct (useCors config).
Qed.

Lemma built_api_stages :
  api_stages (built_router codes u config w) = mounted config.
Proof.
  rewrite built_router_eq. unfold first_stages.
  destruct (useCors config); cbn; by rewrite app_nil_r.
Qed.

Lemma built_capabilities :
  deref (heap (built_world codes u config w)) (capabilities_ref config (heap w))
  = final_capabilities codes u config (seed config w).
Proof.
  unfold built_world, final_capabilities, with_fixed, fixed_entries.
  cbn [foldl fst snd world heap].
  rewrite !deref_write_eq. do 3 f_equal.
  unfold after_registrars. rewrite registrars_deref. f_equal.
  cbn [world heap].
  by rewrite deref_write_eq, deref_capabilities_heap.
Qed.

Lemma built_served :
  served (built_router codes u config w) (built_world codes u config w)
  = Some (final_capabilities codes u config (seed config w)).
Proof.
  unfold served. rewrite built_discovery_ref.
  change (Some (deref (heap (built_world codes u config w))
                  (capabilities_ref config (heap w)))
          = Some (final_capabilities codes u config (seed config w))).
  f_equal. apply built_capabilities.
Qed.

Lemma built_frame (l : loc) :
  l ∈ dom (heap w) -> capabilities config ≠ Some l ->
  heap (built_world codes u config w) !! l = heap w !! l.
Proof.
  intros Hl Hne.
  pose proof (capabilities_ref_fresh config (heap w) l Hl Hne) as Href.
  unfold built_world, fixed_entries.
  cbn [foldl fst snd world heap].
  rewrite !lookup_write_ne by done.
  unfold after_registrars. rewrite registrars_frame by done.
  cbn [world heap].
  rewrite lookup_write_ne by done.
  by apply lookup_capabilities_heap.
Qed.

Lemma built_console :
  exists notices,
    console (built_world codes u config w)
    = console w ++ (if warned u then [ssl_warning] else []) ++ notices
    /\ forall x, x ∈ notices -> x = alpha_notice.
Proof.
  unfold built_world, after_registrars. cbn [world console].
  match goal with
  | |- context [foldl ?f ?b ?ps] =>
      destruct (registrars_console codes u config
                  (capabilities_ref config (heap w)) ps b) as (n & Hn & Hall)
  end.
  exists n. split; [|exact Hall].
  rewrite Hn. cbn [world console].
  destruct (warned u); [by rewrite <- app_assoc | reflexivity].
Qed.

End Built.

(** * Lookups in the final capability map *)

Section FinalCapabilities.

Variable codes : CapabilityCodes.t.
Variable u : URL.
Variable config : Config.

Lemma with_subprotocols_other ps (m : Capabilities) (k : string) :
  k ∉ capability_key codes <$> filter (fun p => enabled config p) ps ->
  with_subprotocols codes u config ps m !! k = m !! k.
Proof.
  revert m. induction ps as [|p ps IH]; intros m Hk; [reflexivity|].
  rewrite with_subprotocols_cons. rewrite filter_cons in Hk.
  case_decide as He.
  - apply Is_true_true in He. rewrite He. rewrite fmap_cons in Hk.
    apply not_elem_of_cons in Hk as [Hne Hk].
    rewrite IH by done. by rewrite lookup_insert_ne.
  - apply Is_true_false in He. rewrite He. by apply IH.
Qed.

Lemma with_subprotocols_enabled ps (m : Capabilities) (p : SubProtocol) :
  NoDup (capability_key codes <$> ps) -> p ∈ ps -> enabled config p ->
  with_subprotocols codes u config ps m !! capability_key codes p
  = Some (template u config (capability_path p)).
Proof.
  revert m. induction ps as [|q ps IH]; intros m Hnd Hp He.
  - by apply elem_of_nil in Hp.
  - rewrite fmap_cons in Hnd. apply NoDup_cons in Hnd as [Hq Hnd].
    rewrite with_subprotocols_cons.
    apply elem_of_cons in Hp as [->|Hp]; [|by apply IH].
    apply Is_true_true in He. rewrite He.
    rewrite with_subprotocols_other.
    + apply lookup_insert_eq.
    + intros Hin. apply Hq.
      apply list_elem_of_fmap in Hin as (p' & -> & Hp').
      apply list_elem_of_fmap. exists p'. split; [done|].
      by apply list_elem_of_filter in Hp' as [_ ?].
Qed.

Lemma dom_with_subprotocols ps (m : Capabilities) :
  dom (with_subprotocols codes u config ps m)
  = dom m ∪ list_to_set (capability_key codes <$> filter (fun p => enabled config p) ps).
Proof.
  revert m. induction ps as [|p ps IH]; intros m.
  - cbn. set_solver.
  - rewrite with_subprotocols_cons, IH, filter_cons.
    case_decide as He.
    + apply Is_true_true in He. rewrite He, fmap_cons, dom_insert_L. set_solver.
    + apply Is_true_false in He. by rewrite He.
Qed.

Lemma dom_final_capabilities (m : Capabilities) :
  dom (final_capabilities codes u config m)
  = dom m ∪ list_to_set (advertised_keys codes config).
Proof.
  unfold final_capabilities, with_fixed, advertised_keys.
  change (fixed_entries.*1) with ["userDomain"; "userDomainResponse"; "userInfo"].
  unfold fixed_entries. cbn [foldl fst snd].
  rewrite !dom_insert_L, dom_with_subprotocols, dom_insert_L.
  rewrite list_to_set_cons, list_to_set_app_L, !list_to_set_cons, list_to_set_nil.
  set_solver.
Qed.

Lemma final_lookup_fixed (m : Capabilities) (k path : string) :
  (k, path) ∈ fixed_entries ->
  final_capabilities codes u config m !! k = Some (template u config path).
Proof.
  intros Hin. unfold final_capabilities, with_fixed.
  unfold fixed_entries in *. cbn [foldl fst snd].
  repeat (apply elem_of_cons in Hin as [[= -> ->]|Hin]).
  - rewrite lookup_insert_ne by done. rewrite lookup_insert_ne by done.
    apply lookup_insert_eq.
  - rewrite lookup_insert_ne by done. apply lookup_insert_eq.
  - apply lookup_insert_eq.
  - by apply elem_of_nil in Hin.
Qed.

Lemma final_lookup_not_fixed (m : Capabilities) (k : string) :
  k ∉ fixed_entries.*1 ->
  final_capabilities codes u config m !! k
  = with_subprotocols codes u config all_subprotocols
      (<[CapabilityCodes.requestSenderValidation codes :=
           Flag (default false (requestSenderValidation config))]> m) !! k.
Proof.
  change (fixed_entries.*1) with ["userDomain"; "userDomainResponse"; "userInfo"].
  intros Hk. unfold final_capabilities, with_fixed, fixed_entries.
  cbn [foldl fst snd].
  rewrite !lookup_insert_ne; [reflexivity|set_solver..].
Qed.

Lemma final_lookup_other (m : Capabilities) (k : string) :
  k ∉ advertised_keys codes config ->
  final_capabilities codes u config m !! k = m !! k.
Proof.
  unfold advertised_keys. intros Hk.
  apply not_elem_of_cons in Hk as [Hrsv Hk].
  apply not_elem_of_app in Hk as [Hsub Hfix].
  rewrite final_lookup_not_fixed by done.
  rewrite with_subprotocols_other by done.
  by rewrite lookup_insert_ne.
Qed.

End FinalCapabilities.

Lemma elem_of_all_subprotocols (p : SubProtocol) : p ∈ all_subprotocols.
Proof. apply (bool_decide_unpack _). by destruct p. Qed.

Section Lookups.

Variable codes : CapabilityCodes.t.
Variable u : URL.
Variable config : Config.

Hypothesis distinct : distinct_codes codes.

Lemma distinct_codes_inv :
  NoDup (capability_key codes <$> all_subprotocols)
  /\ (CapabilityCodes.requestSenderValidation codes
       ∉ (capability_key codes <$> all_subprotocols))
  /\ (CapabilityCodes.requestSenderValidation codes ∉ fixed_entries.*1)
  /\ forall p, capability_key codes p ∉ fixed_entries.*1.
Proof.
  pose proof distinct as Hd. unfold distinct_codes, all_keys in Hd.
  apply NoDup_cons in Hd as [Hrsv Hd].
  apply NoDup_app in Hd as (Hnd & Hdisj & _).
  apply not_elem_of_app in Hrsv as [Hr1 Hr2].
  repeat split; try done.
  intros p. apply Hdisj, list_elem_of_fmap. exists p. split; [done|].
  apply elem_of_all_subprotocols.
Qed.

Lemma enabled_keys_subset (k : string) :
  k ∈ capability_key codes <$> filter (fun p => enabled config p) all_subprotocols ->
  k ∈ capability_key codes <$> all_subprotocols.
Proof.
  intros (q & -> & Hq)%list_elem_of_fmap. apply list_elem_of_fmap.
  exists q. split; [done|]. by apply list_elem_of_filter in Hq as [_ ?].
Qed.

Lemma final_lookup_flag (m : Capabilities) :
  final_capabilities codes u config m !! CapabilityCodes.requestSenderValidation codes
  = Some (Flag (default false (requestSenderValidation config))).
Proof.
  destruct distinct_codes_inv as (_ & Hr1 & Hr2 & _).
  rewrite final_lookup_not_fixed by done.
  rewrite with_subprotocols_other; [apply lookup_insert_eq|].
  intros Hin. by apply Hr1, enabled_keys_subset.
Qed.

Lemma final_lookup_enabled (m : Capabilities) (p : SubProtocol) :
  enabled config p ->
  final_capabilities codes u config m !! capability_key codes p
  = Some (template u config (capability_path p)).
Proof.
  intros He. destruct distinct_codes_inv as (Hnd & _ & _ & Hfix).
  rewrite final_lookup_not_fixed by done.
  apply with_subprotocols_enabled; [done| |done].
  apply elem_of_all_subprotocols.
Qed.

Lemma disabled_not_advertised (p : SubProtocol) :
  ¬ enabled config p -> capability_key codes p ∉ advertised_keys codes config.
Proof.
  intros He. destruct distinct_codes_inv as (Hnd & Hr1 & _ & Hfix).
  unfold advertised_keys.
  apply not_elem_of_cons. split.
  - intros Heq. apply Hr1. rewrite <- Heq.
    apply list_elem_of_fmap. exists p. split; [done | apply elem_of_all_subprotocols].
  - apply not_elem_of_app. split; [|done].
    intros (q & Heq & Hq)%list_elem_of_fmap.
    apply list_elem_of_filter in Hq as [Hqe Hq].
    assert (p = q) as ->; [|done].
    pose proof (elem_of_all_subprotocols p) as Hp.
    apply list_elem_of_lookup in Hp as [i Hi].
    apply list_elem_of_lookup in Hq as [j Hj].
    assert (i = j) as ->; [|congruence].
    eapply NoDup_lookup; [exact Hnd|..].
    + by rewrite list_lookup_fmap, Hi.
    + by rewrite list_lookup_fmap, Hj, Heq.
Qed.

End Lookups.

Lemma fmap_filter_sublist {A B : Type} (f : A -> B) (P : A -> Prop)
    `{!forall x, Decision (P x)} (l : list A) :
  f <$> filter P l `sublist_of` f <$> l.
Proof.
  induction l as [|x l IH]; [done|].
  rewrite filter_cons, !fmap_cons.
  case_decide; [rewrite fmap_cons; by constructor | by constructor].
Qed.

Lemma advertised_keys_NoDup (codes : CapabilityCodes.t) (config : Config) :
  distinct_codes codes -> NoDup (advertised_keys codes config).
Proof.
  intros Hd. eapply sublist_NoDup; [exact Hd|].
  unfold advertised_keys, all_keys. constructor.
  apply sublist_app; [apply fmap_filter_sublist | done].
Qed.

(** * The claims *)

(** C1 (as amended).  For a base URL that parses and any set of enabled
    sub-protocols, the capability map served by the discovery endpoint holds
    the boolean entry of sender validation, one template per enabled
    sub-protocol under that sub-protocol's own key, and the three fixed
    entries [userDomain], [userDomainResponse], [userInfo]; every other key
    is as the caller seeded it through [config.capabilities].  With
    [config.capabilities] unset the map has these entries and no others. *)
Theorem capability_map_entries
    (URL_new : string -> Js.Error + URL) (codes : CapabilityCodes.t)
    (baseUrl : string) (u : URL) (config : Config) (w : World) :
  distinct_codes codes ->
  URL_new baseUrl = inr u ->
  exists router w' m,
    buildPaymailRouter URL_new codes baseUrl config w = (inr router, w')
    /\ served router w' = Some m
    /\ NoDup (advertised_keys codes config)
    /\ m !! CapabilityCodes.requestSenderValidation codes
       = Some (Flag (default false (requestSenderValidation config)))
    /\ (forall p, enabled config p ->
          m !! capability_key codes p = Some (template u config (capability_path p)))
    /\ (forall p, ¬ enabled config p ->
          m !! capability_key codes p = seed config w !! capability_key codes p)
    /\ (forall k path, (k, path) ∈ fixed_entries ->
          m !! k = Some (template u config path))
    /\ (forall k, k ∉ advertised_keys codes config -> m !! k = seed config w !! k)
    /\ dom m = dom (seed config w) ∪ list_to_set (advertised_keys codes config)
    /\ (capabilities config = None ->
          dom m = list_to_set (advertised_keys codes config)).
Proof.
  intros Hd Hu.
  exists (built_router codes u config w), (built_world codes u config w),
    (final_capabilities codes u config (seed config w)).
  split; [by apply build_ok|].
  split; [apply built_served|].
  split; [by apply advertised_keys_NoDup|].
  split; [by apply final_lookup_flag|].
  split; [intros p Hp; by apply final_lookup_enabled|].
  split; [intros p Hp; by apply final_lookup_other, disabled_not_advertised|].
  split; [intros k path Hk; by apply final_lookup_fixed|].
  split; [intros k Hk; by apply final_lookup_other|].
  split; [apply dom_final_capabilities|].
  intros Hnone. rewrite dom_final_capabilities.
  unfold seed. rewrite Hnone, dom_empty_L. set_solver.
Qed.

Lemma named_codes_distinct : distinct_codes named_codes.
Proof. apply (bool_decide_unpack _). vm_compute. exact I. Qed.

Lemma capability_map_entries_witness :
  exists router w' m,
    buildPaymailRouter simple_URL_new named_codes "https://example.com"
      identity_only empty_world = (inr router, w')
    /\ served router w' = Some m
    /\ dom m = list_to_set (advertised_keys named_codes identity_only).
Proof.
  destruct (capability_map_entries simple_URL_new named_codes "https://example.com"
              (MkURL "https:" "example.com" "https://example.com" "https://example.com/")
              identity_only empty_world)
    as (router & w' & m & Hb & Hs & _ & _ & _ & _ & _ & _ & _ & Hdom).
  - apply (bool_decide_unpack _). vm_compute. exact I.
  - vm_compute. reflexivity.
  - exists router, w', m. split; [exact Hb|]. split; [exact Hs|].
    apply Hdom. reflexivity.
Defined.

(** C1 as stated fails: a caller that passes its own [capabilities] object
    already holding [pki], with identity lookup disabled, is served a map
    with an entry [pki] that belongs to no enabled sub-protocol. *)
Lemma capability_map_extra_entry :
  enabled seeded_config Identity = false
  /\ ("pki" ∉ advertised_keys named_codes seeded_config)
  /\ (served_by (buildPaymailRouter simple_URL_new named_codes "https://example.com"
                   seeded_config seeded_world) ≫= lookup "pki")
     = Some (Template "https://elsewhere.example/id").
Proof.
  split; [reflexivity|]. split; [|vm_compute; reflexivity].
  apply (bool_decide_unpack _). vm_compute. exact I.
Qed.

Lemma mounted_iff_enabled (config : Config) (p : SubProtocol) :
  (exists f, SubProtocolRouter p f ∈ mounted config) <-> enabled config p.
Proof.
  unfold mounted, enabled. rewrite bool_decide_spec. split.
  - intros (f & Hf). apply list_elem_of_omap in Hf as (q & _ & Hq).
    destruct (callbacks config q) as [g|] eqn:Hg; [|discriminate Hq].
    cbn in Hq. injection Hq as -> ->. by exists f.
  - intros (f & Hf). exists f. apply list_elem_of_omap. exists p.
    split; [apply elem_of_all_subprotocols | by rewrite Hf].
Qed.

(** C3 (as amended).  For every sub-protocol and every configuration: the
    handler is mounted in the API router exactly when the required callback
    is configured, and a mounted handler always has its capability entry, so
    a configuration with the callback yields both.  A configuration without
    it yields no handler, and under the sub-protocol's key the map has just
    what the caller's own [config.capabilities] held there; so unless the
    caller seeded that key (never when [config.capabilities] is unset),
    handler and entry are there together or not at all. *)
Theorem handler_iff_capability
    (URL_new : string -> Js.Error + URL) (codes : CapabilityCodes.t)
    (baseUrl : string) (u : URL) (config : Config) (w : World) (p : SubProtocol) :
  distinct_codes codes ->
  URL_new baseUrl = inr u ->
  exists router w' m,
    buildPaymailRouter URL_new codes baseUrl config w = (inr router, w')
    /\ served router w' = Some m
    /\ (is_mounted p router <-> enabled config p)
    /\ (is_mounted p router ->
          m !! capability_key codes p = Some (template u config (capability_path p)))
    /\ (enabled config p ->
          is_mounted p router
          /\ m !! capability_key codes p = Some (template u config (capability_path p)))
    /\ (¬ enabled config p ->
          ¬ is_mounted p router
          /\ m !! capability_key codes p = seed config w !! capability_key codes p)
    /\ (seed config w !! capability_key codes p = None ->
          (is_mounted p router <-> is_Some (m !! capability_key codes p)))
    /\ (capabilities config = None ->
          (is_mounted p router <-> is_Some (m !! capability_key codes p))).
Proof.
  intros Hd Hu.
  exists (built_router codes u config w), (built_world codes u config w),
    (final_capabilities codes u config (seed config w)).
  split; [by apply build_ok|]. split; [apply built_served|].
  unfold is_mounted. rewrite built_api_stages.
  assert (Hon : enabled config p ->
    final_capabilities codes u config (seed config w) !! capability_key codes p
    = Some (template u config (capability_path p)))
    by (intros Hp; by apply final_lookup_enabled).
  assert (Hoff : ¬ enabled config p ->
    final_capabilities codes u config (seed config w) !! capability_key codes p
    = seed config w !! capability_key codes p).
  { intros Hp. apply final_lookup_other. by apply disabled_not_advertised. }
  assert (Hiff : seed config w !! capability_key codes p = None ->
    (exists f, SubProtocolRouter p f ∈ mounted config)
    <-> is_Some (final_capabilities codes u config (seed config w)
                   !! capability_key codes p)).
  { intros Hseed. rewrite mounted_iff_enabled. split.
    - intros Hp. rewrite Hon by done. by eexists.
    - intros Hsome. destruct (decide (enabled config p)) as [|Hp]; [done|].
      rewrite Hoff, Hseed in Hsome by done. by destruct Hsome. }
  split; [apply mounted_iff_enabled|].
  split; [intros Hm; by apply Hon, mounted_iff_enabled|].
  split; [intros Hp; split; [by apply mounted_iff_enabled | by apply Hon]|].
  split; [intros Hp; split; [by rewrite mounted_iff_enabled | by apply Hoff]|].
  split; [exact Hiff|].
  intros Hnone. apply Hiff. unfold seed. by rewrite Hnone.
Qed.

Lemma handler_iff_capability_witness :
  exists router w' m,
    buildPaymailRouter simple_URL_new named_codes "https://example.com"
      identity_only empty_world = (inr router, w')
    /\ served router w' = Some m
    /\ (is_mounted Identity router <-> is_Some (m !! "pki"))
    /\ (is_mounted PublicProfile router <-> is_Some (m !! "publicProfile")).
Proof.
  destruct (handler_iff_capability simple_URL_new named_codes "https://example.com"
              (MkURL "https:" "example.com" "https://example.com" "https://example.com/")
              identity_only empty_world Identity)
    as (router & w' & m & Hb & Hs & _ & _ & _ & _ & _ & Hiff).
  - exact named_codes_distinct.
  - vm_compute. reflexivity.
  - destruct (handler_iff_capability simple_URL_new named_codes "https://example.com"
              (MkURL "https:" "example.com" "https://example.com" "https://example.com/")
              identity_only empty_world PublicProfile)
      as (router2 & w2 & m2 & Hb2 & Hs2 & _ & _ & _ & _ & _ & Hiff2).
    + exact named_codes_distinct.
    + vm_compute. reflexivity.
    + rewrite Hb in Hb2. injection Hb2 as <- <-.
      rewrite Hs in Hs2. injection Hs2 as <-.
      exists router, w', m. split; [exact Hb|]. split; [exact Hs|].
      split; [apply Hiff | apply Hiff2]; reflexivity.
Defined.

(** C3 as stated fails: with [pki] already in the caller's capability
    object and no identity callback, the served map advertises [pki] while
    no handler is mounted. *)
Lemma capability_without_handler :
  enabled seeded_config Identity = false
  /\ mounted_by (buildPaymailRouter simple_URL_new named_codes "https://example.com"
                  seeded_config seeded_world) = Some []
  /\ (served_by (buildPaymailRouter simple_URL_new named_codes "https://example.com"
                   seeded_config seeded_world) ≫= lookup "pki")
     = Some (Template "https://elsewhere.example/id").
Proof. repeat split; vm_compute; reflexivity. Qed.

(** C8 (as amended).  Construction writes to one object only: the
    capability map.  Every object that existed before the call and is not
    the caller's own [config.capabilities] is left as it was, whether
    construction succeeds or throws; when [config.capabilities] is unset
    nothing the caller owns changes.  A supplied [config.capabilities]
    object is the map the entries are written into. *)
Theorem construction_frame
    (URL_new : string -> Js.Error + URL) (codes : CapabilityCodes.t)
    (baseUrl : string) (config : Config) (w : World) (l : loc) :
  l ∈ dom (heap w) ->
  (capabilities config ≠ Some l ->
     heap (buildPaymailRouter URL_new codes baseUrl config w).2 !! l = heap w !! l)
  /\ (forall u, capabilities config = Some l -> URL_new baseUrl = inr u ->
        heap (buildPaymailRouter URL_new codes baseUrl config w).2 !! l
        = Some (final_capabilities codes u config (deref (heap w) l))).
Proof.
  intros Hl. split.
  - intros Hne. destruct (URL_new baseUrl) as [err|u] eqn:Hu.
    + by rewrite (build_throws _ _ _ err).
    + rewrite (build_ok _ _ _ u) by done. by apply built_frame.
  - intros u Hsome Hu. rewrite (build_ok _ _ _ u) by done.
    pose proof (built_capabilities codes u config w) as Hc.
    unfold capabilities_ref, seed in Hc. rewrite Hsome in Hc.
    rewrite <- Hc. unfold deref.
    unfold built_world, fixed_entries, capabilities_ref.
    rewrite Hsome. cbn [foldl fst snd world heap].
    apply lookup_write_eq.
Qed.

Lemma construction_frame_witness :
  heap (buildPaymailRouter simple_URL_new named_codes "https://example.com"
          identity_only seeded_world).2 !! 1%positive
  = heap seeded_world !! 1%positive.
Proof.
  apply (construction_frame simple_URL_new named_codes "https://example.com"
           identity_only seeded_world 1%positive).
  - apply (bool_decide_unpack _). vm_compute. exact I.
  - discriminate.
Defined.

(** C8 as stated fails: the caller's [config.capabilities] object is
    written to; after construction it holds [userInfo], which it did not
    hold before. *)
Lemma caller_capabilities_mutated :
  capabilities seeded_config = Some 1%positive
  /\ (heap seeded_world !! 1%positive ≫= lookup "userInfo") = None
  /\ (heap (buildPaymailRouter simple_URL_new named_codes "https://example.com"
              seeded_config seeded_world).2 !! 1%positive ≫= lookup "userInfo")
     = Some (Template "https://example.com//payauth/userinfo/{user}@{domain.tld}").
Proof. repeat split; vm_compute; reflexivity. Qed.

(** * Errors, the warning and its pattern *)

Lemma cause_depth (e c : Js.Error) : Js.cause e = Some c -> Js.depth e = S (Js.depth c).
Proof. destruct e as [n m [c'|]]; cbn; [by intros [= ->] | discriminate]. Qed.

(** An error is never its own cause. *)
Lemma cause_irreflexive (e : Js.Error) : Js.cause e ≠ Some e.
Proof. intros H. apply cause_depth in H. lia. Qed.

Lemma strip_prefix_app (p r : string) : strip_prefix p (p +:+ r) = Some r.
Proof.
  induction p as [|a p IH]; [by destruct r|].
  change (strip_prefix (String a p) (String a p +:+ r))
    with (if Ascii.eqb a a then strip_prefix p (p +:+ r) else None).
  by rewrite Ascii.eqb_refl.
Qed.

Lemma strip_prefix_Some (p s r : string) : strip_prefix p s = Some r -> s = p +:+ r.
Proof.
  revert s. induction p as [|a p IH]; intros s H.
  - destruct s; by injection H as <-.
  - destruct s as [|b s]; [discriminate|].
    change (strip_prefix (String a p) (String b s))
      with (if Ascii.eqb a b then strip_prefix p s else None) in H.
    destruct (Ascii.eqb a b) eqn:Hab; [|discriminate].
    apply Ascii.eqb_eq in Hab as ->.
    change (String b p +:+ r) with (String b (p +:+ r)). f_equal. by apply IH.
Qed.

(** X2.  [locahost_re_test] accepts exactly what [/^locahost:?\d*$/] accepts:
    [locahost], then nothing or a colon, then digits only. *)
Lemma locahost_re_test_spec (s : string) :
  locahost_re_test s = true
  <-> exists ds, all_digits ds = true
        /\ (s = "locahost" +:+ ds \/ s = "locahost:" +:+ ds).
Proof.
  unfold locahost_re_test. split.
  - destruct (strip_prefix "locahost" s) as [r|] eqn:Hr; [|discriminate].
    apply strip_prefix_Some in Hr as ->.
    destruct r as [|c r]; [intros _; exists ""; by split; [|left]|].
    destruct (decide (c = ":"%char)) as [->|Hc].
    + intros Hd. exists r. split; [done | by right].
    + intros Hd. exists (String c r). split; [|by left].
      destruct c as [[] [] [] [] [] [] [] []]; try done.
  - intros (ds & Hds & [-> | ->]).
    + rewrite strip_prefix_app.
      destruct ds as [|c ds]; [done|].
      destruct c as [[] [] [] [] [] [] [] []]; try done.
    + change ("locahost:" +:+ ds) with ("locahost" +:+ String ":" ds).
      by rewrite strip_prefix_app.
Qed.

Lemma alpha_notice_not_ssl (x : string) : x = alpha_notice -> x ≠ ssl_warning.
Proof. intros ->. discriminate. Qed.

(** C4.  What index.js does for a base URL that does not parse: the call
    throws, nothing is returned (no router, no handler) and the world is as
    before; the exception is a plain [Error] whose message is
    ["Invalid base url: "] followed by the input.  Its [cause] is whatever
    [cause] the parse failure itself had, never the parse failure: the
    caught error is passed where the constructor expects an options bag. *)
Theorem invalid_base_url_error
    (URL_new : string -> Js.Error + URL) (codes : CapabilityCodes.t)
    (baseUrl : string) (err : Js.Error) (config : Config) (w : World) :
  URL_new baseUrl = inl err ->
  exists e,
    buildPaymailRouter URL_new codes baseUrl config w = (inl e, w)
    /\ Js.name e = "Error"
    /\ Js.message e = "Invalid base url: " +:+ baseUrl
    /\ Js.cause e = Js.cause err
    /\ Js.cause e ≠ Some err.
Proof.
  intros Hu. exists (Js.new_Error ("Invalid base url: " +:+ baseUrl) err).
  split; [by apply build_throws|].
  repeat split. cbn. apply cause_irreflexive.
Qed.

Lemma invalid_base_url_error_witness :
  buildPaymailRouter simple_URL_new named_codes "example.com" identity_only empty_world
  = (inl (Js.MkError "Error" "Invalid base url: example.com" None), empty_world).
Proof.
  destruct (invalid_base_url_error simple_URL_new named_codes "example.com"
              invalid_url identity_only empty_world)
    as (e & Hb & Hn & Hm & Hc & _).
  - vm_compute. reflexivity.
  - rewrite Hb. destruct e as [n m c]. cbn in Hn, Hm, Hc. by subst.
Defined.

(** C9.  A base URL that parses, is not https, and whose hostname matches
    the pattern: [validateBaseUrl] prints the warning and returns the parsed
    URL itself, touching nothing but the console; construction completes
    and serves a capability map. *)
Theorem insecure_warning_not_fatal
    (URL_new : string -> Js.Error + URL) (codes : CapabilityCodes.t)
    (baseUrl : string) (u : URL) (config : Config) (w : World) :
  URL_new baseUrl = inr u ->
  protocol u ≠ "https:" ->
  locahost_re_test (hostname u) = true ->
  (forall b,
     validateBaseUrl URL_new baseUrl b
     = (inr u, MkBuild (MkWorld (heap (world b)) (console (world b) ++ [ssl_warning]))
                 (baseRouter b) (apiRouter b)))
  /\ exists router w' m,
       buildPaymailRouter URL_new codes baseUrl config w = (inr router, w')
       /\ ssl_warning ∈ console w'
       /\ served router w' = Some m
       /\ m = final_capabilities codes u config (seed config w).
Proof.
  intros Hu Hp Hh.
  assert (Hw : warned u = true).
  { unfold warned. rewrite Hh, andb_true_r. apply negb_true_iff.
    by apply String.eqb_neq. }
  split.
  - intros b. rewrite (validateBaseUrl_ok _ _ u) by done. by rewrite Hw.
  - exists (built_router codes u config w), (built_world codes u config w),
      (final_capabilities codes u config (seed config w)).
    split; [by apply build_ok|]. split; [|split; [apply built_served | done]].
    destruct (built_console codes u config w) as (n & -> & _).
    rewrite Hw. set_solver.
Qed.

Lemma insecure_warning_not_fatal_witness :
  exists router w',
    buildPaymailRouter simple_URL_new named_codes "http://locahost:3000"
      identity_only empty_world = (inr router, w')
    /\ ssl_warning ∈ console w'.
Proof.
  destruct (insecure_warning_not_fatal simple_URL_new named_codes "http://locahost:3000"
              (MkURL "http:" "locahost" "http://locahost:3000" "http://locahost:3000/")
              identity_only empty_world)
    as (_ & router & w' & m & Hb & Hc & _).
  - vm_compute. reflexivity.
  - discriminate.
  - reflexivity.
  - exists router, w'. split; [exact Hb | exact Hc].
Defined.

(** C10.  [validateBaseUrl] prints the warning exactly when the scheme is
    not https and the hostname matches [/^locahost:?\d*$/]; otherwise it
    changes nothing.  A hostname that is exactly [localhost] never matches,
    so for it no warning is printed and construction adds none. *)
Theorem warning_only_for_locahost
    (URL_new : string -> Js.Error + URL) (codes : CapabilityCodes.t)
    (baseUrl : string) (u : URL) (config : Config) (w : World) :
  URL_new baseUrl = inr u ->
  (forall b,
     validateBaseUrl URL_new baseUrl b
     = (inr u,
        if negb (String.eqb (protocol u) "https:") && locahost_re_test (hostname u)
        then MkBuild (MkWorld (heap (world b)) (console (world b) ++ [ssl_warning]))
               (baseRouter b) (apiRouter b)
        else b))
  /\ (forall b b', validateBaseUrl URL_new baseUrl b = (inr u, b') -> b' ≠ b ->
        protocol u ≠ "https:" /\ locahost_re_test (hostname u) = true)
  /\ locahost_re_test "localhost" = false
  /\ (hostname u = "localhost" ->
        (forall b, validateBaseUrl URL_new baseUrl b = (inr u, b))
        /\ (ssl_warning ∉ console w ->
            ssl_warning ∉ console (buildPaymailRouter URL_new codes baseUrl config w).2)).
Proof.
  intros Hu.
  assert (Hv : forall b,
     validateBaseUrl URL_new baseUrl b
     = (inr u,
        if negb (String.eqb (protocol u) "https:") && locahost_re_test (hostname u)
        then MkBuild (MkWorld (heap (world b)) (console (world b) ++ [ssl_warning]))
               (baseRouter b) (apiRouter b)
        else b)).
  { intros b. rewrite (validateBaseUrl_ok _ _ u) by done. unfold warned.
    destruct (negb _ && _); [done|]. by destruct b as [[??]??]. }
  split; [exact Hv|]. split.
  { intros b b' Hb Hne. rewrite Hv in Hb.
    destruct (String.eqb (protocol u) "https:") eqn:Hp;
      destruct (locahost_re_test (hostname u));
      cbn in Hb; injection Hb as <-; try done.
    split; [|done]. by apply String.eqb_neq. }
  split; [reflexivity|].
  intros Hh. split.
  - intros b. rewrite Hv, Hh. by rewrite andb_false_r.
  - intros Hw. rewrite (build_ok _ _ _ u) by done. cbn [snd].
    destruct (built_console codes u config w) as (n & -> & Hn).
    unfold warned. rewrite Hh, andb_false_r.
    rewrite !not_elem_of_app. repeat split; [done|set_solver|].
    intros Hin. by apply (alpha_notice_not_ssl ssl_warning (Hn _ Hin)).
Qed.

Lemma warning_only_for_locahost_witness :
  ssl_warning ∉ console (buildPaymailRouter simple_URL_new named_codes
                           "http://localhost:3000" identity_only empty_world).2.
Proof.
  destruct (warning_only_for_locahost simple_URL_new named_codes "http://localhost:3000"
              (MkURL "http:" "localhost" "http://localhost:3000" "http://localhost:3000/")
              identity_only empty_world)
    as (_ & _ & _ & Hl).
  - vm_compute. reflexivity.
  - destruct Hl as [_ Hl]; [reflexivity|]. apply Hl. cbn. apply not_elem_of_nil.
Defined.

(** * Serving *)

Section ServingFacts.

Variable ext : Collaborators.

(** No stage changes the world: the only handler of index.js reads. *)
Lemma run_stage_world (s : Stage) (req : Request) (w : World) :
  (run_stage ext s req w).2 = w.
Proof.
  destruct s; cbn; try reflexivity.
  - by destruct (String.eqb _ _ && _).
  - by destruct (mount_match _ _ _).
Qed.

Lemma handle_world (stages : list Stage) (req : Request) (w : World) :
  (handle ext stages req w).2 = w.
Proof.
  induction stages as [|s stages IH]; [reflexivity|].
  cbn [handle]. pose proof (run_stage_world s req w) as Hw.
  destruct (run_stage ext s req w) as [[|e|r] w0]; cbn in Hw; by subst.
Qed.

(** Stages that pass the request on are transparent. *)
Lemma handle_skip (pre rest : list Stage) (req : Request) (w : World) :
  (forall s, s ∈ pre -> (run_stage ext s req w).1 = Next) ->
  handle ext (pre ++ rest) req w = handle ext rest req w.
Proof.
  induction pre as [|s pre IH]; intros Hpre; [reflexivity|].
  cbn [app handle].
  pose proof (Hpre s ltac:(left)) as Hs.
  pose proof (run_stage_world s req w) as Hw.
  destruct (run_stage ext s req w) as [o w0]. cbn in Hs, Hw. subst.
  apply IH. intros s' Hs'. apply Hpre. by right.
Qed.

(** After a raise, the first error-handling middleware answers. *)
Lemma handle_error_reaches (post : list Stage) (h : Function) (e : Js.Error)
    (req : Request) :
  (forall f, UseHandler f ∉ post) ->
  handle_error ext (post ++ [UseHandler h]) e req
  = Responded (handleError ext h e req).
Proof.
  induction post as [|s post IH]; intros Hno; [reflexivity|].
  assert (Hpost : forall f, UseHandler f ∉ post).
  { intros f Hf. apply (Hno f). by right. }
  destruct s; cbn [app handle_error]; try by apply IH.
  exfalso. eapply Hno. left.
Qed.

Lemma handle_error_answers (l : list Stage) (h : Function) (e : Js.Error)
    (req : Request) :
  exists r, handle_error ext (l ++ [UseHandler h]) e req = Responded r.
Proof.
  induction l as [|s l IH]; [by eexists|].
  destruct s; cbn [app handle_error]; try exact IH. by eexists.
Qed.

(** With an error handler at the end, no error leaves the router. *)
Lemma handle_contains_errors (l : list Stage) (h : Function) (req : Request)
    (w : World) (e : Js.Error) :
  (handle ext (l ++ [UseHandler h]) req w).1 ≠ Unhandled (Some e).
Proof.
  revert w. induction l as [|s l IH]; intros w; [discriminate|].
  cbn [app handle].
  destruct (run_stage ext s req w) as [[|e'|r] w0]; cbn [fst].
  - apply IH.
  - destruct (handle_error_answers l h e' req) as [r ->]. discriminate.
  - discriminate.
Qed.

End ServingFacts.

(** C5.  The router built by index.js has the discovery endpoint at
    [/.well-known/bsvalias]; its handler answers every request with content
    type [application/json] and the document [{ bsvalias: '1.0',
    capabilities }] read from the capability object, and leaves the world
    as it is.  So every GET to that path that the body-parsing and
    cross-origin stages let through gets that answer, and asking again gets
    the same answer. *)
Theorem discovery_document
    (ext : Collaborators) (URL_new : string -> Js.Error + URL)
    (codes : CapabilityCodes.t) (baseUrl : string) (u : URL) (config : Config)
    (w : World) :
  URL_new baseUrl = inr u ->
  exists router w' l m,
    buildPaymailRouter URL_new codes baseUrl config w = (inr router, w')
    /\ Get "/.well-known/bsvalias" l ∈ router
    /\ discovery_ref router = Some l
    /\ served router w' = Some m
    /\ (forall req w0,
          discovery_handler l req w0
          = (MkResponse "application/json" (Discovery "1.0" (deref (heap w0) l)), w0))
    /\ (forall req,
          method req = "GET" ->
          route_match ext "/.well-known/bsvalias" (path req) = true ->
          (forall o, bodyParser_json ext o req = Next) ->
          (forall o, cors ext o req = Next) ->
          handle ext router req w'
          = (Responded (MkResponse "application/json" (Discovery "1.0" m)), w')
          /\ handle ext router req (handle ext router req w').2
             = handle ext router req w').
Proof.
  intros Hu.
  exists (built_router codes u config w), (built_world codes u config w),
    (capabilities_ref config (heap w)),
    (final_capabilities codes u config (seed config w)).
  split; [by apply build_ok|].
  split; [rewrite built_router_eq; set_solver|].
  split; [apply built_discovery_ref|].
  split; [apply built_served|].
  split; [reflexivity|].
  intros req Hget Hroute Hbody Hcors.
  split; [|by rewrite handle_world].
  rewrite built_router_eq, handle_skip.
  - cbn [handle run_stage]. rewrite Hget, Hroute.
    cbn [String.eqb andb discovery_handler fst snd].
    change (String.eqb "GET" "GET") with true. cbn [andb].
    by rewrite built_capabilities.
  - unfold first_stages. intros s Hs.
    apply elem_of_cons in Hs as [->|Hs]; [cbn; apply Hbody|].
    destruct (useCors config); [|by apply elem_of_nil in Hs].
    apply list_elem_of_singleton in Hs as ->. cbn. apply Hcors.
Qed.

Lemma discovery_document_witness :
  exists router w' m,
    buildPaymailRouter simple_URL_new named_codes "https://example.com"
      identity_only empty_world = (inr router, w')
    /\ handle transparent router (MkRequest "GET" "/.well-known/bsvalias" "") w'
       = (Responded (MkResponse "application/json" (Discovery "1.0" m)), w').
Proof.
  destruct (discovery_document transparent simple_URL_new named_codes
              "https://example.com"
              (MkURL "https:" "example.com" "https://example.com" "https://example.com/")
              identity_only empty_world)
    as (router & w' & l & m & Hb & _ & _ & _ & _ & Hreq).
  - vm_compute. reflexivity.
  - exists router, w', m. split; [exact Hb|].
    apply Hreq; reflexivity.
Defined.

(** C7.  The router index.js returns ends with the error handler: before
    it come the JSON body parser, the cross-origin stage when [useCors] is
    set, the discovery endpoint and the API router holding every mounted
    sub-protocol handler, and none of these is an error handler.  Whatever
    stage raises, the error is answered by [config.errorHandler], and no
    error leaves the router unanswered. *)
Theorem error_handler_last
    (ext : Collaborators) (URL_new : string -> Js.Error + URL)
    (codes : CapabilityCodes.t) (baseUrl : string) (u : URL) (config : Config)
    (w : World) :
  URL_new baseUrl = inr u ->
  exists router w' l stages,
    buildPaymailRouter URL_new codes baseUrl config w = (inr router, w')
    /\ router = stages ++ [UseHandler (errorHandler config)]
    /\ last router = Some (UseHandler (errorHandler config))
    /\ stages
       = BodyParserJson (<["type" := "application/json"]>
                           (default ∅ (bodyParserConfig config)))
           :: (if useCors config then [Cors (default ∅ (corsConfig config))] else [])
           ++ [Get "/.well-known/bsvalias" l;
               Use (getBaseRoute config) (mounted config)]
    /\ (forall p f, callbacks config p = Some f -> SubProtocolRouter p f ∈ mounted config)
    /\ (forall f, UseHandler f ∉ stages)
    /\ (forall pre s post req w0 e,
          stages = pre ++ s :: post ->
          (forall s', s' ∈ pre -> (run_stage ext s' req w0).1 = Next) ->
          (run_stage ext s req w0).1 = Raise e ->
          (handle ext router req w0).1
          = Responded (handleError ext (errorHandler config) e req))
    /\ (forall req w0 e, (handle ext router req w0).1 ≠ Unhandled (Some e)).
Proof.
  intros Hu.
  set (stages := first_stages config ++
        [Get "/.well-known/bsvalias" (capabilities_ref config (heap w));
         Use (getBaseRoute config) (mounted config)]).
  assert (Hrouter : built_router codes u config w
                    = stages ++ [UseHandler (errorHandler config)]).
  { rewrite built_router_eq. unfold stages. by rewrite <- app_assoc. }
  assert (Hno : forall f, UseHandler f ∉ stages).
  { intros f. unfold stages, first_stages.
    destruct (useCors config); set_solver. }
  exists (built_router codes u config w), (built_world codes u config w),
    (capabilities_ref config (heap w)), stages.
  split; [by apply build_ok|].
  split; [exact Hrouter|].
  split; [rewrite Hrouter; apply last_snoc|].
  split; [reflexivity|].
  split.
  { intros p f Hf. unfold mounted. apply list_elem_of_omap. exists p.
    split; [apply elem_of_all_subprotocols | by rewrite Hf]. }
  split; [exact Hno|].
  split.
  - intros pre s post req w0 e Hsplit Hpre Hs.
    rewrite Hrouter, Hsplit, <- app_assoc, handle_skip by done.
    cbn [app handle].
    pose proof (run_stage_world ext s req w0) as Hw.
    destruct (run_stage ext s req w0) as [o w1]. cbn in Hs, Hw. subst.
    cbn [fst]. apply handle_error_reaches.
    intros f Hf. apply (Hno f). rewrite Hsplit. set_solver.
  - intros req w0 e. rewrite Hrouter. apply handle_contains_errors.
Qed.

Lemma error_handler_last_witness :
  exists router w',
    buildPaymailRouter simple_URL_new named_codes "https://example.com"
      identity_only empty_world = (inr router, w')
    /\ last router = Some (UseHandler (Fn 0))
    /\ (handle (failing invalid_url) router (MkRequest "GET" "/id/a@b.c" "") w').1
       = Responded (MkResponse "application/json" (Other "Invalid URL")).
Proof.
  destruct (error_handler_last (failing invalid_url) simple_URL_new named_codes
              "https://example.com"
              (MkURL "https:" "example.com" "https://example.com" "https://example.com/")
              identity_only empty_world)
    as (router & w' & l & stages & Hb & _ & Hlast & Hst & _ & _ & Hraise & _).
  - vm_compute. reflexivity.
  - exists router, w'. split; [exact Hb|]. split; [exact Hlast|].
    refine (Hraise [BodyParserJson _; Get _ l] (Use _ _) []
              (MkRequest "GET" "/id/a@b.c" "") w' invalid_url Hst _ _).
    + intros s' Hs'.
      apply elem_of_cons in Hs' as [->|Hs']; [reflexivity|].
      apply list_elem_of_singleton in Hs' as ->. reflexivity.
    + reflexivity.
Defined.

(** * Templates *)










(** The model on joins whose outcome with the package is known. *)
Lemma urljoin_examples :
  urljoin ["http://www.google.com"; "a"; "/b/cd"; "?foo=123"]
  = "http://www.google.com/a/b/cd?foo=123"
  /\ urljoin ["https://example.com/"; "/"; "/id/{alias}@{domain.tld}"]
     = "https://example.com//id/{alias}@{domain.tld}"
  /\ urljoin ["https://example.com/"; "//api//v1//"; "/id/{alias}@{domain.tld}"]
     = "https://example.com/api//v1/id/{alias}@{domain.tld}"
  /\ urljoin ["https://example.com/?x=1"; "/api"; "/id/{alias}@{domain.tld}"]
     = "https://example.com?x=1/api/id/{alias}@{domain.tld}".
Proof. repeat split; vm_compute; reflexivity. Qed.











(** C6.  What index.js serves in the example of the specification: base
    URL [https://example.com], [basePath] unset, identity lookup the only
    enabled sub-protocol and nothing else configured.  The served map has
    exactly five entries: [pki], the sender-validation flag (false),
    [userDomain], [userDomainResponse] and [userInfo]; every template has
    two slashes after the host, because the default base path [/] is
    joined as a part of its own and [url-join] keeps the part it emptied. *)
Theorem identity_only_example
    (URL_new : string -> Js.Error + URL) (codes : CapabilityCodes.t)
    (u : URL) (config : Config) (w : World) :
  URL_new "https://example.com" = inr u ->
  href u = "https://example.com/" ->
  CapabilityCodes.requestSenderValidation codes
    ∉ ["pki"; "userDomain"; "userDomainResponse"; "userInfo"] ->
  basePath config = None ->
  capabilities config = None ->
  requestSenderValidation config = None ->
  (forall p, enabled config p = bool_decide (p = Identity)) ->
  exists m,
    served_by (buildPaymailRouter URL_new codes "https://example.com" config w) = Some m
    /\ m = <["userInfo" :=
               Template "https://example.com//payauth/userinfo/{user}@{domain.tld}"]>
          (<["userDomainResponse" :=
               Template "https://example.com//oauth/response/{app}@{domain.tld}"]>
          (<["userDomain" :=
               Template "https://example.com//oauth/{user}@{domain.tld}"]>
          (<["pki" := Template "https://example.com//id/{alias}@{domain.tld}"]>
          (<[CapabilityCodes.requestSenderValidation codes := Flag false]> ∅))))
    /\ m !! "pki" = Some (Template "https://example.com//id/{alias}@{domain.tld}")
    /\ m !! CapabilityCodes.requestSenderValidation codes = Some (Flag false)
    /\ size m = 5.
Proof.
  intros Hu Hhref Hrsv Hbp Hcaps Hsv Hen.
  apply not_elem_of_cons in Hrsv as [H1 Hrsv].
  apply not_elem_of_cons in Hrsv as [H2 Hrsv].
  apply not_elem_of_cons in Hrsv as [H3 Hrsv].
  apply not_elem_of_cons in Hrsv as [H4 _].
  eexists. split; [|split; [reflexivity|]].
  - rewrite (build_ok _ _ _ u) by done. unfold served_by. cbn [fst snd].
    rewrite built_served. f_equal.
    unfold seed. rewrite Hcaps.
    unfold final_capabilities, with_subprotocols, all_subprotocols,
      with_fixed, fixed_entries.
    cbn [foldl fst snd]. rewrite !Hen, Hsv.
    unfold template, joinUrls, getBaseRoute. rewrite Hbp, Hhref.
    reflexivity.
  - split; [|split].
    + rewrite !lookup_insert_ne by done; apply lookup_insert_eq.
    + rewrite !lookup_insert_ne by done; apply lookup_insert_eq.
    + rewrite !map_size_insert_None, map_size_empty; [reflexivity|..].
      * apply lookup_empty.
      * rewrite !lookup_insert_ne by done; apply lookup_empty.
      * rewrite !lookup_insert_ne by done; apply lookup_empty.
      * rewrite !lookup_insert_ne by done; apply lookup_empty.
      * rewrite !lookup_insert_ne by done; apply lookup_empty.
Qed.

Lemma identity_only_example_witness :
  exists m,
    served_by (buildPaymailRouter simple_URL_new named_codes "https://example.com"
                 identity_only empty_world) = Some m
    /\ m !! "pki" = Some (Template "https://example.com//id/{alias}@{domain.tld}")
    /\ m !! "requestSenderValidation" = Some (Flag false)
    /\ size m = 5.
Proof.
  destruct (identity_only_example simple_URL_new named_codes
              (MkURL "https:" "example.com" "https://example.com" "https://example.com/")
              identity_only empty_world)
    as (m & Hs & _ & Hpki & Hflag & Hsize).
  - vm_compute. reflexivity.
  - reflexivity.
  - apply (bool_decide_unpack _). vm_compute. exact I.
  - reflexivity.
  - reflexivity.
  - reflexivity.
  - intros p. by destruct p.
  - exists m. split; [exact Hs|]. split; [exact Hpki|]. split; [exact Hflag | exact Hsize].
Defined.

(** * Further properties of index.js *)

(** ** The base path *)

(** X1.  An empty [basePath] is the same as none: [config.basePath || '/']
    takes the empty string for missing, so construction returns the same
    router (or throws the same error) and leaves the same world. *)
Theorem empty_basePath_is_unset
    (URL_new : string -> Js.Error + URL) (codes : CapabilityCodes.t)
    (baseUrl : string) (config : Config) (w : World) :
  buildPaymailRouter URL_new codes baseUrl (set_basePath (Some "") config) w
  = buildPaymailRouter URL_new codes baseUrl (set_basePath None config) w.
Proof. reflexivity. Qed.

(** ** The console *)

Lemma mount_effect_console (codes : CapabilityCodes.t) (u : URL) (config : Config)
    (l : loc) (p : SubProtocol) (b : Build) :
  console (world (mount_effect codes u config l p b))
  = match p, callbacks config p with
    | PublicProfile, Some _ => console (world b) ++ [alpha_notice]
    | _, _ => console (world b)
    end.
Proof. unfold mount_effect. destruct p; destruct (callbacks config _); reflexivity. Qed.

Lemma built_console_exact (codes : CapabilityCodes.t) (u : URL) (config : Config)
    (w : World) :
  console (built_world codes u config w)
  = console w ++ (if warned u then [ssl_warning] else [])
      ++ (if enabled config PublicProfile then [alpha_notice] else []).
Proof.
  unfold built_world, after_registrars, all_subprotocols.
  cbn [foldl world console].
  rewrite !mount_effect_console. cbn [world console].
  unfold enabled.
  destruct (callbacks config PublicProfile), (warned u); cbn;
    by rewrite <- ?app_assoc, ?app_nil_r.
Qed.

(** X3.  What construction prints, for a base URL that parses: the ssl
    warning if the URL is not https and its hostname matches the pattern,
    then the alpha notice if the public-profile sub-protocol is enabled;
    each at most once, in this order, and nothing else. *)
Theorem console_after_construction
    (URL_new : string -> Js.Error + URL) (codes : CapabilityCodes.t)
    (baseUrl : string) (u : URL) (config : Config) (w : World) :
  URL_new baseUrl = inr u ->
  console (buildPaymailRouter URL_new codes baseUrl config w).2
  = console w
      ++ (if negb (String.eqb (protocol u) "https:") && locahost_re_test (hostname u)
          then ["Paymail should always use ssl on production"] else [])
      ++ (if enabled config PublicProfile
          then ["This feature is in alpha state. Paymail profile protocol is still being discussed."]
          else []).
Proof.
  intros Hu. rewrite (build_ok _ _ _ u) by done. apply built_console_exact.
Qed.

Lemma console_after_construction_witness :
  console (buildPaymailRouter simple_URL_new named_codes "http://locahost:3000"
             profile_and_identity empty_world).2
  = ["Paymail should always use ssl on production";
     "This feature is in alpha state. Paymail profile protocol is still being discussed."].
Proof.
  apply (console_after_construction simple_URL_new named_codes "http://locahost:3000"
           (MkURL "http:" "locahost" "http://locahost:3000" "http://locahost:3000/")
           profile_and_identity empty_world).
  vm_compute. reflexivity.
Defined.

(** ** The body parser *)

(** X4.  The first stage of every router is the JSON body parser, and there
    is no other.  Its options are the caller's [bodyParserConfig] with
    [type] set to [application/json]: a [type] the caller gives is
    overridden, every other option is kept. *)
Theorem body_parser_scoped_to_json
    (URL_new : string -> Js.Error + URL) (codes : CapabilityCodes.t)
    (baseUrl : string) (u : URL) (config : Config) (w : World) :
  URL_new baseUrl = inr u ->
  exists options rest w',
    buildPaymailRouter URL_new codes baseUrl config w
    = (inr (BodyParserJson options :: rest), w')
    /\ options !! "type" = Some "application/json"
    /\ (forall k, k ≠ "type" ->
          options !! k = default ∅ (bodyParserConfig config) !! k)
    /\ (forall o, BodyParserJson o ∉ rest).
Proof.
  intros Hu. rewrite (build_ok _ _ _ u) by done. rewrite built_router_eq.
  unfold first_stages. do 3 eexists. split; [reflexivity|].
  split; [apply lookup_insert_eq|]. split.
  - intros k Hk. by rewrite lookup_insert_ne.
  - intros o. destruct (useCors config); set_solver.
Qed.

Lemma body_parser_scoped_to_json_witness :
  exists options rest w',
    buildPaymailRouter simple_URL_new named_codes "https://example.com"
      text_body_config empty_world
    = (inr (BodyParserJson options :: rest), w')
    /\ options !! "type" = Some "application/json"
    /\ options !! "limit" = Some "1mb".
Proof.
  destruct (body_parser_scoped_to_json simple_URL_new named_codes "https://example.com"
              (MkURL "https:" "example.com" "https://example.com" "https://example.com/")
              text_body_config empty_world)
    as (options & rest & w' & Hb & Ht & Hk & _).
  - vm_compute. reflexivity.
  - exists options, rest, w'. split; [exact Hb|]. split; [exact Ht|].
    rewrite Hk; [reflexivity | discriminate].
Defined.

(** ** The API router *)

Lemma stage_protocol_omap (config : Config) (ps : list SubProtocol) :
  stage_protocol <$> omap (fun p => SubProtocolRouter p <$> callbacks config p) ps
  = filter (fun p => enabled config p) ps.
Proof.
  induction ps as [|p ps IH]; [reflexivity|].
  rewrite filter_cons. cbn [omap list_omap].
  case_decide as He.
  - unfold enabled in He. apply bool_decide_unpack in He as [f Hf].
    rewrite Hf. cbn. f_equal. exact IH.
  - destruct (callbacks config p) as [f|] eqn:Hf; [|exact IH].
    exfalso. apply He. unfold enabled. rewrite Hf. apply bool_decide_pack. by eexists.
Qed.

(** X5.  The API router holds the routers of the enabled sub-protocols and
    nothing else, in the order index.js registers them (identity, payment
    destination, public-key verification, public profile, receive
    transaction, P2P destination, P2P destination with tokens, asset
    information), each once, each closing over its own callback. *)
Theorem api_router_in_registration_order
    (URL_new : string -> Js.Error + URL) (codes : CapabilityCodes.t)
    (baseUrl : string) (u : URL) (config : Config) (w : World) :
  URL_new baseUrl = inr u ->
  exists router w',
    buildPaymailRouter URL_new codes baseUrl config w = (inr router, w')
    /\ stage_protocol <$> api_stages router
       = filter (fun p => enabled config p)
           [Identity; GetPaymentDestination; VerifyPubkey; PublicProfile;
            ReceiveTransaction; P2pPaymentDestination; P2pPaymentDestinationToken;
            AssetInformation]
    /\ NoDup (stage_protocol <$> api_stages router)
    /\ (forall p f, SubProtocolRouter p f ∈ api_stages router
                    <-> callbacks config p = Some f).
Proof.
  intros Hu. exists (built_router codes u config w), (built_world codes u config w).
  split; [by apply build_ok|]. rewrite built_api_stages.
  assert (Heq : stage_protocol <$> mounted config
                = filter (fun p => enabled config p) all_subprotocols)
    by apply stage_protocol_omap.
  split; [exact Heq|]. split.
  - rewrite Heq. apply NoDup_filter.
    apply (bool_decide_unpack _). vm_compute. exact I.
  - intros p f. unfold mounted. rewrite list_elem_of_omap. split.
    + intros (q & _ & Hq). destruct (callbacks config q) as [g|] eqn:Hg; [|discriminate Hq].
      cbn in Hq. by injection Hq as -> ->.
    + intros Hf. exists p. split; [apply elem_of_all_subprotocols | by rewrite Hf].
Qed.

Lemma api_router_in_registration_order_witness :
  exists router w',
    buildPaymailRouter simple_URL_new named_codes "https://example.com"
      profile_and_identity empty_world = (inr router, w')
    /\ stage_protocol <$> api_stages router = [Identity; PublicProfile].
Proof.
  destruct (api_router_in_registration_order simple_URL_new named_codes
              "https://example.com"
              (MkURL "https:" "example.com" "https://example.com" "https://example.com/")
              profile_and_identity empty_world)
    as (router & w' & Hb & Ho & _).
  - vm_compute. reflexivity.
  - exists router, w'. split; [exact Hb | exact Ho].
Defined.

(** ** The capability object across constructions *)

Lemma built_capabilities_lookup (codes : CapabilityCodes.t) (u : URL) (config : Config)
    (w : World) :
  heap (built_world codes u config w) !! capabilities_ref config (heap w)
  = Some (final_capabilities codes u config (seed config w)).
Proof.
  rewrite <- built_capabilities.
  unfold built_world, fixed_entries. cbn [foldl fst snd world heap].
  apply lookup_write_eq.
Qed.

Lemma capabilities_ref_new (config : Config) (h : gmap loc Capabilities) :
  capabilities config = None -> capabilities_ref config h ∉ dom h.
Proof. intros Hn. unfold capabilities_ref. rewrite Hn. apply is_fresh. Qed.

Lemma served_frame (r : Router) (w w' : World) (l : loc) :
  discovery_ref r = Some l -> heap w' !! l = heap w !! l -> served r w' = served r w.
Proof.
  intros Hr Hl. unfold served. rewrite Hr.
  change (Some (deref (heap w') l) = Some (deref (heap w) l)).
  unfold deref. by rewrite Hl.
Qed.

Lemma served_at (r : Router) (w : World) (l : loc) :
  discovery_ref r = Some l -> served r w = Some (deref (heap w) l).
Proof. intros Hr. unfold served. by rewrite Hr. Qed.

Lemma build_frame_other (URL_new : string -> Js.Error + URL) (codes : CapabilityCodes.t)
    (s : string) (config : Config) (w : World) (l : loc) :
  l ∈ dom (heap w) -> capabilities config ≠ Some l ->
  heap (buildPaymailRouter URL_new codes s config w).2 !! l = heap w !! l.
Proof.
  intros Hl Hne. destruct (URL_new s) as [err|u] eqn:Hu.
  - by rewrite (build_throws _ _ _ err).
  - rewrite (build_ok _ _ _ u) by done. by apply built_frame.
Qed.

(** X6.  With [config.capabilities] unset the capability map is a new
    object, distinct from every object there was; a later construction that
    is not handed that object, whatever its base URL and configuration and
    whether it succeeds or throws, leaves what this router serves as it is. *)
Theorem own_capability_object
    (URL_new : string -> Js.Error + URL) (codes : CapabilityCodes.t)
    (baseUrl : string) (u : URL) (config : Config) (w : World) :
  URL_new baseUrl = inr u ->
  capabilities config = None ->
  exists router w' l,
    buildPaymailRouter URL_new codes baseUrl config w = (inr router, w')
    /\ discovery_ref router = Some l
    /\ (l ∉ dom (heap w))
    /\ (l ∈ dom (heap w'))
    /\ (forall baseUrl2 config2,
          capabilities config2 ≠ Some l ->
          served router (buildPaymailRouter URL_new codes baseUrl2 config2 w').2
          = served router w').
Proof.
  intros Hu Hn.
  exists (built_router codes u config w), (built_world codes u config w),
    (capabilities_ref config (heap w)).
  assert (Hin : capabilities_ref config (heap w) ∈ dom (heap (built_world codes u config w))).
  { apply elem_of_dom. rewrite built_capabilities_lookup. by eexists. }
  split; [by apply build_ok|]. split; [apply built_discovery_ref|].
  split; [by apply capabilities_ref_new|]. split; [exact Hin|].
  intros baseUrl2 config2 Hne.
  apply (served_frame _ _ _ (capabilities_ref config (heap w)));
    [apply built_discovery_ref | by apply build_frame_other].
Qed.

Lemma own_capability_object_witness :
  exists router w',
    buildPaymailRouter simple_URL_new named_codes "https://example.com"
      identity_only seeded_world = (inr router, w')
    /\ served router (buildPaymailRouter simple_URL_new named_codes "https://other.example"
                        profile_and_identity w').2
       = served router w'.
Proof.
  destruct (own_capability_object simple_URL_new named_codes "https://example.com"
              (MkURL "https:" "example.com" "https://example.com" "https://example.com/")
              identity_only seeded_world)
    as (router & w' & l & Hb & _ & _ & _ & Hkeep).
  - vm_compute. reflexivity.
  - reflexivity.
  - exists router, w'. split; [exact Hb|]. apply Hkeep. discriminate.
Defined.

(** X7.  Two routers built over the same [config.capabilities] object share
    one capability map: after the second construction both serve the same
    document, which holds the second construction's entries and, under every
    key the second does not write, what the first router served. *)
Theorem shared_capability_object
    (URL_new : string -> Js.Error + URL) (codes : CapabilityCodes.t)
    (baseUrl1 baseUrl2 : string) (u1 u2 : URL) (config1 config2 : Config)
    (w : World) (l : loc) :
  URL_new baseUrl1 = inr u1 ->
  URL_new baseUrl2 = inr u2 ->
  capabilities config1 = Some l ->
  capabilities config2 = Some l ->
  exists router1 w1 router2 w2 m1 m2,
    buildPaymailRouter URL_new codes baseUrl1 config1 w = (inr router1, w1)
    /\ buildPaymailRouter URL_new codes baseUrl2 config2 w1 = (inr router2, w2)
    /\ served router1 w1 = Some m1
    /\ served router1 w2 = Some m2
    /\ served router2 w2 = Some m2
    /\ (forall k, k ∉ advertised_keys codes config2 -> m2 !! k = m1 !! k)
    /\ (forall k path, (k, path) ∈ fixed_entries ->
          m2 !! k = Some (template u2 config2 path)).
Proof.
  intros Hu1 Hu2 Hc1 Hc2.
  set (w1 := built_world codes u1 config1 w).
  set (m1 := final_capabilities codes u1 config1 (seed config1 w)).
  assert (Href1 : forall h, capabilities_ref config1 h = l)
    by (intros h; unfold capabilities_ref; by rewrite Hc1).
  assert (Href2 : forall h, capabilities_ref config2 h = l)
    by (intros h; unfold capabilities_ref; by rewrite Hc2).
  assert (Hm1 : heap w1 !! l = Some m1).
  { unfold w1, m1. rewrite <- (Href1 (heap w)). apply built_capabilities_lookup. }
  assert (Hseed : seed config2 w1 = m1).
  { unfold seed, deref. by rewrite Hc2, Hm1. }
  exists (built_router codes u1 config1 w), w1,
    (built_router codes u2 config2 w1), (built_world codes u2 config2 w1),
    m1, (final_capabilities codes u2 config2 m1).
  split; [by apply build_ok|]. split; [by apply build_ok|].
  split; [apply built_served|].
  split.
  { rewrite (served_at _ _ l) by (by rewrite built_discovery_ref, Href1).
    f_equal. rewrite <- (Href2 (heap w1)), built_capabilities. by rewrite Hseed. }
  split; [rewrite built_served; by rewrite Hseed|].
  split; [intros k Hk; by apply final_lookup_other|].
  intros k path Hk. by apply final_lookup_fixed.
Qed.

Lemma shared_capability_object_witness :
  exists router1 w1 router2 w2 m2,
    buildPaymailRouter simple_URL_new named_codes "https://example.com"
      seeded_config seeded_world = (inr router1, w1)
    /\ buildPaymailRouter simple_URL_new named_codes "https://other.example"
         seeded_identity w1 = (inr router2, w2)
    /\ served router1 w2 = Some m2
    /\ served router2 w2 = Some m2.
Proof.
  destruct (shared_capability_object simple_URL_new named_codes
              "https://example.com" "https://other.example"
              (MkURL "https:" "example.com" "https://example.com" "https://example.com/")
              (MkURL "https:" "other.example" "https://other.example" "https://other.example/")
              seeded_config seeded_identity seeded_world 1%positive)
    as (r1 & w1 & r2 & w2 & m1 & m2 & Hb1 & Hb2 & _ & Hs1 & Hs2 & _).
  - vm_compute. reflexivity.
  - vm_compute. reflexivity.
  - reflexivity.
  - reflexivity.
  - exists r1, w1, r2, w2, m2. split; [exact Hb1|]. split; [exact Hb2|].
    split; [exact Hs1 | exact Hs2].
Defined.

(** ** Constructing again *)

Lemma overriding_insert (k0 : string) (v0 : CapValue) :
  overriding (fun m => <[k0 := v0]> m).
Proof.
  exists (fun k => if decide (k0 = k) then Some v0 else None).
  intros m k. rewrite lookup_insert. by destruct (decide (k0 = k)).
Qed.

Lemma overriding_id : overriding (fun m => m).
Proof. exists (fun _ => None). done. Qed.

Lemma overriding_compose (F G : Capabilities -> Capabilities) :
  overriding F -> overriding G -> overriding (fun m => G (F m)).
Proof.
  intros [f Hf] [g Hg].
  exists (fun k => match g k with Some v => Some v | None => f k end).
  intros m k. rewrite Hg, Hf. by destruct (g k).
Qed.

Lemma overriding_idempotent (F : Capabilities -> Capabilities) (m : Capabilities) :
  overriding F -> F (F m) = F m.
Proof.
  intros [f Hf]. apply map_eq. intros k. rewrite (Hf (F m)).
  destruct (f k) as [v|] eqn:Hk; [|reflexivity]. by rewrite Hf, Hk.
Qed.

Lemma overriding_with_subprotocols (codes : CapabilityCodes.t) (u : URL)
    (config : Config) (ps : list SubProtocol) :
  overriding (with_subprotocols codes u config ps).
Proof.
  induction ps as [|p ps IH]; [apply overriding_id|].
  apply (overriding_compose
           (fun m => if enabled config p
                     then <[capability_key codes p :=
                              template u config (capability_path p)]> m
                     else m)
           (with_subprotocols codes u config ps)); [|exact IH].
  destruct (enabled config p); [apply overriding_insert | apply overriding_id].
Qed.

Lemma overriding_final_capabilities (codes : CapabilityCodes.t) (u : URL)
    (config : Config) :
  overriding (final_capabilities codes u config).
Proof.
  unfold final_capabilities, with_fixed, fixed_entries. cbn [foldl fst snd].
  repeat (apply (overriding_compose _ (fun m => <[_ := _]> m));
          [|apply overriding_insert]).
  apply (overriding_compose (fun m => <[_ := _]> m)
           (with_subprotocols codes u config all_subprotocols));
    [apply overriding_insert | apply overriding_with_subprotocols].
Qed.

(** X8.  Constructing again with the same base URL and the same
    configuration over the same [config.capabilities] object returns the
    same router and leaves the capability object exactly as the first
    construction left it. *)
Theorem reconstruction_keeps_capabilities
    (URL_new : string -> Js.Error + URL) (codes : CapabilityCodes.t)
    (baseUrl : string) (u : URL) (config : Config) (w : World) (l : loc) :
  URL_new baseUrl = inr u ->
  capabilities config = Some l ->
  exists router w1 w2,
    buildPaymailRouter URL_new codes baseUrl config w = (inr router, w1)
    /\ buildPaymailRouter URL_new codes baseUrl config w1 = (inr router, w2)
    /\ heap w2 !! l = heap w1 !! l
    /\ served router w2 = served router w1.
Proof.
  intros Hu Hc.
  assert (Href : forall h, capabilities_ref config h = l)
    by (intros h; unfold capabilities_ref; by rewrite Hc).
  set (w1 := built_world codes u config w).
  assert (Hm1 : heap w1 !! l
                = Some (final_capabilities codes u config (seed config w))).
  { unfold w1. rewrite <- (Href (heap w)). apply built_capabilities_lookup. }
  assert (Hkeep : heap (built_world codes u config w1) !! l = heap w1 !! l).
  { rewrite <- (Href (heap w1)) at 1. rewrite built_capabilities_lookup, Hm1.
    f_equal. unfold seed at 1. unfold deref. rewrite Hc, Hm1.
    change (final_capabilities codes u config
              (final_capabilities codes u config (seed config w))
            = final_capabilities codes u config (seed config w)).
    apply (overriding_idempotent (final_capabilities codes u config)).
    apply overriding_final_capabilities. }
  exists (built_router codes u config w), w1, (built_world codes u config w1).
  split; [by apply build_ok|]. split.
  - rewrite (build_ok _ _ _ u) by done. f_equal. f_equal.
    by rewrite !built_router_eq, !Href.
  - split; [exact Hkeep|].
    apply (served_frame _ _ _ l); [|exact Hkeep].
    by rewrite built_discovery_ref, Href.
Qed.

Lemma reconstruction_keeps_capabilities_witness :
  exists router w1 w2,
    buildPaymailRouter simple_URL_new named_codes "https://example.com"
      seeded_identity seeded_world = (inr router, w1)
    /\ buildPaymailRouter simple_URL_new named_codes "https://example.com"
         seeded_identity w1 = (inr router, w2)
    /\ served router w2 = served router w1.
Proof.
  destruct (reconstruction_keeps_capabilities simple_URL_new named_codes
              "https://example.com"
              (MkURL "https:" "example.com" "https://example.com" "https://example.com/")
              seeded_identity seeded_world 1%positive)
    as (router & w1 & w2 & Hb1 & Hb2 & _ & Hs).
  - vm_compute. reflexivity.
  - reflexivity.
  - exists router, w1, w2. split; [exact Hb1|]. split; [exact Hb2 | exact Hs].
Defined.

(** ** The discovery endpoint reads the object, not a copy *)

(** X9.  The discovery endpoint keeps a reference to the capability object
    and reads it on every request: whatever the object holds when a GET for
    [/.well-known/bsvalias] arrives is what the document carries.  So an
    entry the caller writes into the object after construction is served
    from then on; index.js neither copies nor freezes the map. *)
Theorem discovery_reads_live_object
    (ext : Collaborators) (URL_new : string -> Js.Error + URL)
    (codes : CapabilityCodes.t) (baseUrl : string) (u : URL) (config : Config)
    (w : World) (req : Request) :
  URL_new baseUrl = inr u ->
  method req = "GET" ->
  route_match ext "/.well-known/bsvalias" (path req) = true ->
  (forall o, bodyParser_json ext o req = Next) ->
  (forall o, cors ext o req = Next) ->
  exists router w' l m,
    buildPaymailRouter URL_new codes baseUrl config w = (inr router, w')
    /\ served router w' = Some m
    /\ (forall w2,
          handle ext router req w2
          = (Responded (MkResponse "application/json"
                          (Discovery "1.0" (deref (heap w2) l))), w2))
    /\ (forall k v,
          (handle ext router req
             (MkWorld (write l k v (heap w')) (console w'))).1
          = Responded (MkResponse "application/json"
                         (Discovery "1.0" (<[k := v]> m)))).
Proof.
  intros Hu Hget Hroute Hbody Hcors.
  assert (Hlive : forall w2,
    handle ext (built_router codes u config w) req w2
    = (Responded (MkResponse "application/json"
                    (Discovery "1.0" (deref (heap w2) (capabilities_ref config (heap w))))),
       w2)).
  { intros w2. rewrite built_router_eq, handle_skip.
    - cbn [handle run_stage]. rewrite Hget, Hroute.
      change (String.eqb "GET" "GET") with true. reflexivity.
    - unfold first_stages. intros s Hs.
      apply elem_of_cons in Hs as [->|Hs]; [cbn; apply Hbody|].
      destruct (useCors config); [|by apply elem_of_nil in Hs].
      apply list_elem_of_singleton in Hs as ->. cbn. apply Hcors. }
  exists (built_router codes u config w), (built_world codes u config w),
    (capabilities_ref config (heap w)),
    (final_capabilities codes u config (seed config w)).
  split; [by apply build_ok|]. split; [apply built_served|].
  split; [exact Hlive|].
  intros k v. rewrite Hlive. cbn [fst heap].
  by rewrite deref_write_eq, built_capabilities.
Qed.

Lemma discovery_reads_live_object_witness :
  exists router w' l m,
    buildPaymailRouter simple_URL_new named_codes "https://example.com"
      identity_only empty_world = (inr router, w')
    /\ served router w' = Some m
    /\ (handle transparent router (MkRequest "GET" "/.well-known/bsvalias" "")
          (MkWorld (write l "custom" (Flag true) (heap w')) (console w'))).1
       = Responded (MkResponse "application/json"
                      (Discovery "1.0" (<["custom" := Flag true]> m))).
Proof.
  destruct (discovery_reads_live_object transparent simple_URL_new named_codes
              "https://example.com"
              (MkURL "https:" "example.com" "https://example.com" "https://example.com/")
              identity_only empty_world (MkRequest "GET" "/.well-known/bsvalias" ""))
    as (router & w' & l & m & Hb & Hs & _ & Hw).
  - vm_compute. reflexivity.
  - reflexivity.
  - reflexivity.
  - reflexivity.
  - reflexivity.
  - exists router, w', l, m. split; [exact Hb|]. split; [exact Hs|]. apply Hw.
Defined.

(** ** How many entries *)

(** X11.  With [config.capabilities] unset and distinct capability codes,
    the served map has four entries (the flag and the three fixed ones)
    plus one for each enabled sub-protocol: between four and twelve. *)
Theorem capability_count
    (URL_new : string -> Js.Error + URL) (codes : CapabilityCodes.t)
    (baseUrl : string) (u : URL) (config : Config) (w : World) :
  distinct_codes codes ->
  URL_new baseUrl = inr u ->
  capabilities config = None ->
  exists router w' m,
    buildPaymailRouter URL_new codes baseUrl config w = (inr router, w')
    /\ served router w' = Some m
    /\ size m = 4 + List.length (filter (fun p => enabled config p) all_subprotocols)
    /\ 4 <= size m <= 12.
Proof.
  intros Hd Hu Hn.
  exists (built_router codes u config w), (built_world codes u config w),
    (final_capabilities codes u config (seed config w)).
  split; [by apply build_ok|]. split; [apply built_served|].
  assert (Hsize : size (final_capabilities codes u config (seed config w))
                  = 4 + List.length (filter (fun p => enabled config p) all_subprotocols)).
  { rewrite <- size_dom, dom_final_capabilities.
    unfold seed. rewrite Hn, dom_empty_L, (left_id_L ∅ (∪)).
    rewrite size_list_to_set by by apply advertised_keys_NoDup.
    unfold advertised_keys. cbn [List.length]. rewrite length_app, length_fmap.
    cbn. lia. }
  split; [exact Hsize|]. rewrite Hsize.
  pose proof (length_filter (fun p => enabled config p) all_subprotocols) as Hle.
  cbn [List.length all_subprotocols] in Hle. lia.
Qed.

Lemma capability_count_witness :
  exists router w' m,
    buildPaymailRouter simple_URL_new named_codes "https://example.com"
      profile_and_identity empty_world = (inr router, w')
    /\ served router w' = Some m
    /\ size m = 6.
Proof.
  destruct (capability_count simple_URL_new named_codes "https://example.com"
              (MkURL "https:" "example.com" "https://example.com" "https://example.com/")
              profile_and_identity empty_world)
    as (router & w' & m & Hb & Hs & Hsize & _).
  - exact named_codes_distinct.
  - vm_compute. reflexivity.
  - reflexivity.
  - exists router, w', m. split; [exact Hb|]. split; [exact Hs|]. exact Hsize.
Defined.

(** ** buildRouter *)

(** X10.  The exported [buildRouter] fills in what the caller left out and
    lets the caller's own properties win.  For a base URL that parses, the
    router is: the JSON body parser over the caller's [bodyParserConfig];
    the cross-origin stage over the caller's [corsConfig], present unless
    the caller gave a falsy [useCors]; the discovery endpoint; the API
    router under the base path; and last the caller's [errorHandler], or
    the default one when none was given. *)
Theorem buildRouter_pipeline
    (URL_new : string -> Js.Error + URL) (codes : CapabilityCodes.t)
    (defaultErrorHandler : Function) (baseDomain : string) (u : URL)
    (config : RouterConfig) (w : World) :
  URL_new baseDomain = inr u ->
  exists router w' l api,
    buildRouter URL_new codes defaultErrorHandler baseDomain config w = (inr router, w')
    /\ router
       = BodyParserJson (<["type" := "application/json"]>
                           (default ∅ (given_bodyParserConfig config)))
           :: (match given_useCors config with
               | Some false => []
               | _ => [Cors (default ∅ (given_corsConfig config))]
               end)
           ++ [Get "/.well-known/bsvalias" l;
               Use (match given_basePath config with
                    | Some "" | None => "/"
                    | Some s => s
                    end) api;
               UseHandler (match given_errorHandler config with
                           | Some f => f
                           | None => defaultErrorHandler
                           end)]
    /\ (forall p f, SubProtocolRouter p f ∈ api <-> given_callbacks config p = Some f).
Proof.
  intros Hu. unfold buildRouter.
  exists (built_router codes u (with_defaults defaultErrorHandler config) w),
    (built_world codes u (with_defaults defaultErrorHandler config) w),
    (capabilities_ref (with_defaults defaultErrorHandler config) (heap w)),
    (mounted (with_defaults defaultErrorHandler config)).
  split; [by apply build_ok|]. split.
  - rewrite built_router_eq. unfold first_stages, getBaseRoute, with_defaults.
    cbn [bodyParserConfig useCors corsConfig basePath errorHandler default
         from_option id].
    destruct (given_useCors config) as [[]|], (given_basePath config) as [[|c s]|],
      (given_errorHandler config); reflexivity.
  - intros p f. unfold mounted. rewrite list_elem_of_omap. split.
    + intros (q & _ & Hq). cbn [callbacks with_defaults] in Hq.
      destruct (given_callbacks config q) as [g|] eqn:Hg; [|discriminate Hq].
      cbn in Hq. by injection Hq as -> ->.
    + intros Hf. exists p. split; [apply elem_of_all_subprotocols|].
      cbn [callbacks with_defaults]. by rewrite Hf.
Qed.

Lemma buildRouter_pipeline_witness :
  exists w' l,
    buildRouter simple_URL_new named_codes (Fn 9) "https://example.com"
      nothing_given empty_world
    = (inr [BodyParserJson {[ "type" := "application/json" ]};
            Cors ∅;
            Get "/.well-known/bsvalias" l;
            Use "/" [];
            UseHandler (Fn 9)], w').
Proof.
  destruct (buildRouter_pipeline simple_URL_new named_codes (Fn 9) "https://example.com"
              (MkURL "https:" "example.com" "https://example.com" "https://example.com/")
              nothing_given empty_world)
    as (router & w' & l & api & Hb & -> & Hapi).
  - vm_compute. reflexivity.
  - exists w', l. rewrite Hb. destruct api as [|[p f] api]; [reflexivity|].
    exfalso. assert (Hin : SubProtocolRouter p f ∈ SubProtocolRouter p f :: api) by left.
    apply Hapi in Hin. discriminate Hin.
Defined.
